(** * Transformer encoder modules: a shallow embedding and its properties

    The development follows [language_modeling/models/transformer_modules.py]:
    [PositionalEncoding], [MultiHeadAttention], [EncoderBlock], [Encoder] and
    [Embedding].  Tensors are shaped arrays of real numbers: arithmetic is
    exact (no rounding), every tensor carries its shape and its dtype tag, and
    the operations of the array library raise the exceptions the library
    raises on shapes it refuses. *)

From Stdlib Require Import Reals ZArith List Bool Arith Lia Lra.
From Stdlib Require String Ascii.
Import ListNotations.

(** ** Exceptions and the error monad *)

Inductive exn : Type :=
| AssertionError
| AttributeError
| ZeroDivisionError
| RuntimeError
| ValueError
| IndexError
| EinopsError.

Inductive result (A : Type) : Type :=
| Ok (a : A)
| Raise (e : exn).

Arguments Ok {A} a.
Arguments Raise {A} e.

Definition bind {A B : Type} (m : result A) (k : A -> result B) : result B :=
  match m with
  | Ok a => k a
  | Raise e => Raise e
  end.

Definition fmap {A B : Type} (f : A -> B) (m : result A) : result B :=
  match m with
  | Ok a => Ok (f a)
  | Raise e => Raise e
  end.

Notation "x <- m ;; k" := (bind m (fun x => k))
  (at level 61, m at next level, right associativity).
Notation "' p <- m ;; k" := (bind m (fun p => k))
  (at level 61, p pattern, m at next level, right associativity).

Definition raises {A : Type} (m : result A) : Prop := exists e, m = Raise e.

(** ** Tensors *)

Inductive torch_dtype : Type := int64 | float16 | float32 | float64.

Definition dtype_eqb (a b : torch_dtype) : bool :=
  match a, b with
  | int64, int64 | float16, float16 | float32, float32 | float64, float64 => true
  | _, _ => false
  end.

Definition dtype_rank (a : torch_dtype) : nat :=
  match a with int64 => 0 | float16 => 1 | float32 => 2 | float64 => 3 end.

(** Type promotion of two operand dtypes. *)
Definition promote (a b : torch_dtype) : torch_dtype :=
  if dtype_rank a <=? dtype_rank b then b else a.

(** A Python float scalar combined with a tensor: integer tensors become
    tensors of the default floating dtype. *)
Definition promote_float (a : torch_dtype) : torch_dtype :=
  match a with int64 => float32 | _ => a end.

Record Tensor : Type := mkTensor {
  shape : list nat;
  dtype : torch_dtype;
  data : list nat -> R
}.

Definition shape_eqb (s1 s2 : list nat) : bool :=
  if list_eq_dec Nat.eq_dec s1 s2 then true else false.

(** Finite sums [f 0 + ... + f (n-1)]. *)
Fixpoint Rsum (n : nat) (f : nat -> R) : R :=
  match n with
  | O => 0%R
  | S m => (Rsum m f + f m)%R
  end.

(** *** Broadcasting *)

Fixpoint broadcast_rev (s1 s2 : list nat) : option (list nat) :=
  match s1, s2 with
  | [], s => Some s
  | s, [] => Some s
  | a :: r1, b :: r2 =>
      match broadcast_rev r1 r2 with
      | Some r =>
          if a =? b then Some (a :: r)
          else if a =? 1 then Some (b :: r)
          else if b =? 1 then Some (a :: r)
          else None
      | None => None
      end
  end.

(** Shapes are aligned on their last axis. *)
Definition broadcast_shapes (s1 s2 : list nat) : option (list nat) :=
  option_map (@rev nat) (broadcast_rev (rev s1) (rev s2)).

(** The index at which an operand of shape [s] is read when the result is
    read at [ix]: leading axes the operand lacks are dropped and an axis of
    size one is read at 0. *)
Definition bcast_index (s : list nat) (ix : list nat) : list nat :=
  map (fun ni => if fst ni =? 1 then 0%nat else snd ni)
      (combine s (skipn (length ix - length s) ix)).

Definition map_tensor (f : R -> R) (t : Tensor) : Tensor :=
  mkTensor (shape t) (dtype t) (fun ix => f (data t ix)).

Definition map2_tensor (dt : torch_dtype) (f : R -> R -> R) (a b : Tensor)
  : result Tensor :=
  match broadcast_shapes (shape a) (shape b) with
  | Some s =>
      Ok (mkTensor s dt
            (fun ix => f (data a (bcast_index (shape a) ix))
                         (data b (bcast_index (shape b) ix))))
  | None => Raise RuntimeError
  end.

Definition tensor_add (a b : Tensor) : result Tensor :=
  map2_tensor (promote (dtype a) (dtype b)) Rplus a b.

(** True division [a / b] of tensors. *)
Definition tensor_div (a b : Tensor) : result Tensor :=
  map2_tensor (promote_float (promote (dtype a) (dtype b))) Rdiv a b.

(** [t / c], [c * t] and [c - t] for a Python number [c]. *)
Definition div_scalar (t : Tensor) (c : R) : Tensor :=
  mkTensor (shape t) (promote_float (dtype t)) (fun ix => (data t ix / c)%R).

Definition mul_scalar (c : R) (t : Tensor) : Tensor :=
  mkTensor (shape t) (promote_float (dtype t)) (fun ix => (c * data t ix)%R).

Definition rsub_scalar (c : R) (t : Tensor) : Tensor :=
  mkTensor (shape t) (dtype t) (fun ix => (c - data t ix)%R).

(** *** Constructors of the array library *)

(** [torch.zeros(n, m)] and [torch.ones(n, m)]: a negative size is refused. *)
Definition full2 (v : R) (n m : Z) : result Tensor :=
  if ((n <? 0) || (m <? 0))%Z then Raise RuntimeError
  else Ok (mkTensor [Z.to_nat n; Z.to_nat m] float32 (fun _ => v)).

Definition zeros2 := full2 0%R.
Definition ones2 := full2 1%R.

(** [torch.arange(n)]: empty when [n <= 0]. *)
Definition arange (n : Z) : Tensor :=
  mkTensor [Z.to_nat n] int64 (fun ix => INR (nth 0 ix 0%nat)).

(** [torch.pow(base, t)] for a Python number [base]. *)
Definition pow_scalar (base : R) (t : Tensor) : Tensor :=
  mkTensor (shape t) (promote_float (dtype t)) (fun ix => Rpower base (data t ix)).

(** Python's [a / b] on integers. *)
Definition py_truediv (a b : Z) : result R :=
  if (b =? 0)%Z then Raise ZeroDivisionError else Ok (IZR a / IZR b)%R.

(** Python's [a % b] on integers: the sign of the result is the divisor's. *)
Definition py_mod (a b : Z) : result Z :=
  if (b =? 0)%Z then Raise ZeroDivisionError else Ok (a mod b)%Z.

(** [t[:, start::step]] on a matrix. *)
Definition slice_cols (start step : nat) (t : Tensor) : result Tensor :=
  match shape t with
  | [n; d] =>
      Ok (mkTensor [n; (d - start + (step - 1)) / step] (dtype t)
            (fun ix => data t [nth 0 ix 0; start + nth 1 ix 0 * step]))
  | _ => Raise IndexError
  end.

(** [dst[:, start::step] = rhs] on a matrix: the columns [start],
    [start + step], ... of [dst] are overwritten by the columns 0, 1, ... of
    [rhs], whose shape has to be that of the view. *)
Definition set_cols (start step : nat) (dst rhs : Tensor) : result Tensor :=
  view <- slice_cols start step dst ;;
  if shape_eqb (shape rhs) (shape view) then
    Ok (mkTensor (shape dst) (dtype dst)
          (fun ix =>
             let j := nth 1 ix 0 in
             if (start <=? j) && ((j - start) mod step =? 0)
             then data rhs [nth 0 ix 0; (j - start) / step]
             else data dst ix))
  else Raise RuntimeError.

(** [einops.rearrange(t, 'seq_length -> seq_length 1')]. *)
Definition rearrange_col (t : Tensor) : result Tensor :=
  match shape t with
  | [n] => Ok (mkTensor [n; 1] (dtype t) (fun ix => data t [nth 0 ix 0]))
  | _ => Raise EinopsError
  end.

(** [einops.rearrange(t, 'seq_length d_model -> 1 seq_length d_model')]. *)
Definition rearrange_unsqueeze0 (t : Tensor) : result Tensor :=
  match shape t with
  | [n; d] =>
      Ok (mkTensor [1; n; d] (dtype t) (fun ix => data t [nth 1 ix 0; nth 2 ix 0]))
  | _ => Raise EinopsError
  end.

(** ** PositionalEncoding *)

Module PositionalEncoding.

Record t : Type := mk {
  seq_length : Z;
  d_model : Z;
  pe : Tensor
}.

(** The body of [_reset_parameters]: the value registered as buffer [pe]. *)
Definition _reset_parameters (seq_length d_model : Z) : result Tensor :=
  pe <- zeros2 seq_length d_model ;;
  positions <- rearrange_col (arange seq_length) ;;
  let dims := arange d_model in
  c <- py_truediv 2 d_model ;;
  let dims := pow_scalar 10000 (mul_scalar c dims) in
  sinusoidal_args <- tensor_div positions dims ;;
  let pe_sin := map_tensor sin sinusoidal_args in
  let pe_cos := map_tensor cos sinusoidal_args in
  rhs <- slice_cols 0 2 pe_sin ;;
  pe <- set_cols 0 2 pe rhs ;;
  rhs <- slice_cols 1 2 pe_cos ;;
  pe <- set_cols 1 2 pe rhs ;;
  rearrange_unsqueeze0 pe.

Definition __init__ (seq_length d_model : Z) : result t :=
  pe <- _reset_parameters seq_length d_model ;;
  Ok (mk seq_length d_model pe).

(** [self.pe[:, :x.size(1)]]: the first rows of the stored table; the slice
    stops at the end of the table. *)
Definition forward (self : t) (x_shape : list nat) : result Tensor :=
  match x_shape with
  | _ :: n :: _ =>
      match shape (pe self) with
      | [one; len; d] =>
          Ok (mkTensor [one; Nat.min n len; d] (dtype (pe self)) (data (pe self)))
      | _ => Raise IndexError
      end
  | _ => Raise IndexError
  end.

End PositionalEncoding.

(** ** Operations of the array library used by the attention modules *)

(** [F.softmax(t, dim=-1)] on a tensor of rank at least one. *)
Definition softmax_last (t : Tensor) : Tensor :=
  mkTensor (shape t) (dtype t)
    (fun ix =>
       (exp (data t ix)
        / Rsum (last (shape t) 1%nat)
            (fun k => exp (data t (removelast ix ++ [k]))))%R).

(** [torch.matmul(a, b)] on two tensors of rank 4, the case the modules use:
    the two leading axes broadcast, the inner sizes have to agree. *)
Definition matmul (a b : Tensor) : result Tensor :=
  match shape a, shape b with
  | [b1; h1; m; k], [b2; h2; k'; n] =>
      if negb (dtype_eqb (dtype a) (dtype b)) then Raise RuntimeError
      else if negb (k =? k') then Raise RuntimeError
      else
        match broadcast_shapes [b1; h1] [b2; h2] with
        | Some lead =>
            Ok (mkTensor (lead ++ [m; n]) (dtype a)
                  (fun ix =>
                     let bh := [nth 0 ix 0%nat; nth 1 ix 0%nat] in
                     Rsum k (fun e =>
                       (data a (bcast_index [b1; h1] bh ++ [nth 2 ix 0%nat; e])
                        * data b (bcast_index [b2; h2] bh ++ [e; nth 3 ix 0%nat]))%R)))
        | None => Raise RuntimeError
        end
  | _, _ => Raise RuntimeError
  end.

(** [t.masked_fill(mask == 0, value)]: out of place, the two shapes broadcast. *)
Definition masked_fill_eq0 (t mask : Tensor) (value : R) : result Tensor :=
  match broadcast_shapes (shape t) (shape mask) with
  | Some s =>
      Ok (mkTensor s (dtype t)
            (fun ix =>
               if Req_dec_T (data mask (bcast_index (shape mask) ix)) 0
               then value
               else data t (bcast_index (shape t) ix)))
  | None => Raise RuntimeError
  end.

(** [torch.triu(t, diagonal=k)] on a matrix. *)
Definition triu (k : Z) (t : Tensor) : result Tensor :=
  match shape t with
  | [_; _] =>
      Ok (mkTensor (shape t) (dtype t)
            (fun ix =>
               if (k <=? Z.of_nat (nth 1 ix 0%nat) - Z.of_nat (nth 0 ix 0%nat))%Z
               then data t ix else 0%R))
  | _ => Raise RuntimeError
  end.

(** ['batch seq_len (num_heads head_dim) -> batch num_heads seq_len head_dim']
    with [num_heads] and [head_dim] given. *)
Definition rearrange_split_heads (num_heads head_dim : Z) (t : Tensor)
  : result Tensor :=
  match shape t with
  | [b; s; d] =>
      if ((0 <=? num_heads) && (0 <=? head_dim)
          && (Z.of_nat d =? num_heads * head_dim))%Z
      then
        Ok (mkTensor [b; Z.to_nat num_heads; s; Z.to_nat head_dim] (dtype t)
              (fun ix =>
                 data t [nth 0 ix 0; nth 2 ix 0;
                         nth 1 ix 0 * Z.to_nat head_dim + nth 3 ix 0]%nat))
      else Raise EinopsError
  | _ => Raise EinopsError
  end.

(** ['batch num_heads seq_len head_dim -> batch num_heads head_dim seq_len']. *)
Definition rearrange_transpose (t : Tensor) : result Tensor :=
  match shape t with
  | [b; h; s; e] =>
      Ok (mkTensor [b; h; e; s] (dtype t)
            (fun ix => data t [nth 0 ix 0; nth 1 ix 0; nth 3 ix 0; nth 2 ix 0]%nat))
  | _ => Raise EinopsError
  end.

(** ['batch num_heads seq_len head_dim -> batch seq_len (num_heads head_dim)']. *)
Definition rearrange_merge_heads (t : Tensor) : result Tensor :=
  match shape t with
  | [b; h; s; e] =>
      Ok (mkTensor [b; s; h * e]%nat (dtype t)
            (fun ix =>
               data t [nth 0 ix 0; nth 2 ix 0 / e; nth 1 ix 0; nth 2 ix 0 mod e]%nat))
  | _ => Raise EinopsError
  end.

(** ['batch seq_len -> batch 1 1 seq_len']. *)
Definition rearrange_padding (t : Tensor) : result Tensor :=
  match shape t with
  | [b; s] =>
      Ok (mkTensor [b; 1; 1; s]%nat (dtype t)
            (fun ix => data t [nth 0 ix 0; nth 3 ix 0]%nat))
  | _ => Raise EinopsError
  end.

(** ** nn.Linear *)

Module Linear.

Record t : Type := mk {
  in_features : nat;
  out_features : nat;
  weight : Tensor;
  bias : Tensor
}.

(** [nn.Linear(in_features, out_features)]; [w] and [b] are the values
    drawn by the default initialisation. *)
Definition __init__ (w b : list nat -> R) (in_features out_features : Z) : result t :=
  if ((in_features <? 0) || (out_features <? 0))%Z then Raise RuntimeError
  else
    let i := Z.to_nat in_features in
    let o := Z.to_nat out_features in
    Ok (mk i o (mkTensor [o; i] float32 w) (mkTensor [o] float32 b)).

(** [x @ weight.T + bias] on the last axis of [x]. *)
Definition forward (self : t) (x : Tensor) : result Tensor :=
  match rev (shape x) with
  | n :: lead =>
      if negb (dtype_eqb (dtype x) (dtype (weight self))) then Raise RuntimeError
      else if negb (n =? in_features self) then Raise RuntimeError
      else
        Ok (mkTensor (rev lead ++ [out_features self]) (dtype x)
              (fun ix =>
                 let o := last ix 0%nat in
                 (Rsum (in_features self)
                    (fun k => data x (removelast ix ++ [k])
                              * data (weight self) [o; k])
                  + data (bias self) [o])%R))
  | [] => Raise RuntimeError
  end.

End Linear.

(** [nn.__init__.xavier_uniform_(w)]: the entries are replaced by the drawn values
    [sample]; the bound of the distribution divides by [fan_in + fan_out]. *)
Definition xavier_uniform_ (sample : list nat -> R) (w : Tensor) : result Tensor :=
  match shape w with
  | [fan_out; fan_in] =>
      if (fan_in + fan_out =? 0)%nat then Raise ZeroDivisionError
      else Ok (mkTensor (shape w) (dtype w) sample)
  | _ => Raise ValueError
  end.

(** [t.data.fill_(v)]. *)
Definition fill_ (v : R) (t : Tensor) : Tensor :=
  mkTensor (shape t) (dtype t) (fun _ => v).

(** ** nn.LayerNorm, nn.Dropout, nn.ReLU, nn.Sequential *)

Module LayerNorm.

Record t : Type := mk {
  normalized_shape : nat;
  eps : R;
  weight : Tensor;
  bias : Tensor
}.

Definition __init__ (d_model : Z) : result t :=
  if (d_model <? 0)%Z then Raise RuntimeError
  else
    let d := Z.to_nat d_model in
    Ok (mk d 1e-5%R (mkTensor [d] float32 (fun _ => 1%R))
                    (mkTensor [d] float32 (fun _ => 0%R))).

Definition forward (self : t) (x : Tensor) : result Tensor :=
  match rev (shape x) with
  | n :: _ =>
      if negb (dtype_eqb (dtype x) (dtype (weight self))) then Raise RuntimeError
      else if negb (n =? normalized_shape self) then Raise RuntimeError
      else
        Ok (mkTensor (shape x) (dtype x)
              (fun ix =>
                 let row := fun k => data x (removelast ix ++ [k]) in
                 let mean := (Rsum n row / INR n)%R in
                 let var := (Rsum n (fun k => (row k - mean) * (row k - mean)) / INR n)%R in
                 let c := last ix 0%nat in
                 ((data x ix - mean) / sqrt (var + eps self)
                  * data (weight self) [c] + data (bias self) [c])%R))
  | [] => Raise RuntimeError
  end.

End LayerNorm.

(** The random choice of one dropout call: the entries that are kept. *)
Definition Noise : Type := list nat -> bool.

Module Dropout.

Record t : Type := mk { p : R }.

Definition __init__ (p : R) : result t :=
  if Rlt_dec p 0 then Raise ValueError
  else if Rlt_dec 1 p then Raise ValueError
  else Ok (mk p).

(** Identity in evaluation mode; in training mode the kept entries are
    rescaled by [1 / (1 - p)] and the others are zeroed. *)
Definition forward (self : t) (training : bool) (keep : Noise) (x : Tensor) : Tensor :=
  if training then
    mkTensor (shape x) (dtype x)
      (fun ix => if keep ix then (data x ix / (1 - p self))%R else 0%R)
  else x.

End Dropout.

Definition relu (x : Tensor) : Tensor := map_tensor (Rmax 0) x.

Inductive Layer : Type :=
| LinearLayer (l : Linear.t)
| DropoutLayer (d : Dropout.t)
| ReLULayer.

Module Sequential.

(** The layers are applied in order; every dropout layer consumes the next
    random choice of [noise]. *)
Fixpoint forward (layers : list Layer) (training : bool) (noise : list Noise)
    (x : Tensor) : result Tensor :=
  match layers with
  | [] => Ok x
  | LinearLayer l :: rest =>
      y <- Linear.forward l x ;;
      forward rest training noise y
  | DropoutLayer d :: rest =>
      forward rest training (tl noise)
        (Dropout.forward d training (hd (fun _ => true) noise) x)
  | ReLULayer :: rest =>
      forward rest training noise (relu x)
  end.

End Sequential.

(** ** MultiHeadAttention *)

Module MultiHeadAttention.

Record t : Type := mk {
  num_heads : Z;
  d_head : Z;
  w_q : Linear.t;
  w_k : Linear.t;
  w_v : Linear.t;
  w_out : Linear.t
}.

(** The values drawn at construction: the default initialisation of the
    four linear layers and the four Xavier draws that replace it. *)
Record random : Type := mk_random {
  default_w : list nat -> R;
  default_b : list nat -> R;
  xavier_q : list nat -> R;
  xavier_k : list nat -> R;
  xavier_v : list nat -> R;
  xavier_out : list nat -> R
}.

Definition reset_linear (sample : list nat -> R) (l : Linear.t) : result Linear.t :=
  w <- xavier_uniform_ sample (Linear.weight l) ;;
  Ok (Linear.mk (Linear.in_features l) (Linear.out_features l) w
                (fill_ 0 (Linear.bias l))).

Definition _reset_parameters (rnd : random) (self : t) : result t :=
  q <- reset_linear (xavier_q rnd) (w_q self) ;;
  k <- reset_linear (xavier_k rnd) (w_k self) ;;
  v <- reset_linear (xavier_v rnd) (w_v self) ;;
  o <- reset_linear (xavier_out rnd) (w_out self) ;;
  Ok (mk (num_heads self) (d_head self) q k v o).

Definition __init__ (rnd : random) (num_heads d_model : Z) : result t :=
  r <- py_mod d_model num_heads ;;
  if negb (r =? 0)%Z then Raise AssertionError
  else
    (* int(d_model / num_heads) *)
    let d_head := Z.quot d_model num_heads in
    w_q <- Linear.__init__ (default_w rnd) (default_b rnd) d_model d_model ;;
    w_k <- Linear.__init__ (default_w rnd) (default_b rnd) d_model d_model ;;
    w_v <- Linear.__init__ (default_w rnd) (default_b rnd) d_model d_model ;;
    w_out <- Linear.__init__ (default_w rnd) (default_b rnd) d_model d_model ;;
    _reset_parameters rnd (mk num_heads d_head w_q w_k w_v w_out).

Definition large_neg_value (dt : torch_dtype) : R :=
  if dtype_eqb dt float32 then (-9e15)%R else (-1e4)%R.

Definition _apply_mask (attention_logits : Tensor)
    (padding_mask causal_mask : option Tensor) : result Tensor :=
  let large_neg_value := large_neg_value (dtype attention_logits) in
  attention_logits <-
    match padding_mask with
    | Some padding_mask =>
        padding_mask <- rearrange_padding padding_mask ;;
        masked_fill_eq0 attention_logits padding_mask large_neg_value
    | None => Ok attention_logits
    end ;;
  attention_logits <-
    match causal_mask with
    | Some causal_mask =>
        masked_fill_eq0 attention_logits causal_mask large_neg_value
    | None => Ok attention_logits
    end ;;
  Ok attention_logits.

Definition forward (self : t) (query : Tensor) (value : option Tensor)
    (padding_mask causal_mask : option Tensor) : result (Tensor * Tensor) :=
  q_proj <- Linear.forward (w_q self) query ;;
  let value := match value with None => query | Some v => v end in
  k_proj <- Linear.forward (w_k self) value ;;
  v_proj <- Linear.forward (w_v self) value ;;
  q_proj <- rearrange_split_heads (num_heads self) (d_head self) q_proj ;;
  k_proj <- rearrange_split_heads (num_heads self) (d_head self) k_proj ;;
  k_proj <- rearrange_transpose k_proj ;;
  v_proj <- rearrange_split_heads (num_heads self) (d_head self) v_proj ;;
  attention_logits <- matmul q_proj k_proj ;;
  let attention_logits :=
    div_scalar attention_logits (sqrt (INR (last (shape q_proj) 0%nat))) in
  attention_logits <- _apply_mask attention_logits padding_mask causal_mask ;;
  let weights := softmax_last attention_logits in
  output <- matmul weights v_proj ;;
  output <- rearrange_merge_heads output ;;
  output <- Linear.forward (w_out self) output ;;
  Ok (output, weights).

End MultiHeadAttention.

(** ** EncoderBlock *)

Module EncoderBlock.

Record t : Type := mk {
  multi_head_attention : MultiHeadAttention.t;
  norm1 : LayerNorm.t;
  dropout1 : Dropout.t;
  pff : list Layer;
  norm2 : LayerNorm.t;
  dropout2 : Dropout.t
}.

Record random : Type := mk_random {
  attention_random : MultiHeadAttention.random;
  pff0_w : list nat -> R;
  pff0_b : list nat -> R;
  pff3_w : list nat -> R;
  pff3_b : list nat -> R
}.

(** The random choices of the three dropout calls of one forward pass. *)
Record noise : Type := mk_noise {
  keep1 : Noise;
  keep_pff : Noise;
  keep2 : Noise
}.

Definition __init__ (rnd : random) (d_model num_heads d_ff : Z) (dropout : R)
  : result t :=
  multi_head_attention <-
    MultiHeadAttention.__init__ (attention_random rnd) num_heads d_model ;;
  norm1 <- LayerNorm.__init__ d_model ;;
  dropout1 <- Dropout.__init__ dropout ;;
  l0 <- Linear.__init__ (pff0_w rnd) (pff0_b rnd) d_model d_ff ;;
  d1 <- Dropout.__init__ dropout ;;
  l3 <- Linear.__init__ (pff3_w rnd) (pff3_b rnd) d_ff d_model ;;
  let pff := [LinearLayer l0; DropoutLayer d1; ReLULayer; LinearLayer l3] in
  norm2 <- LayerNorm.__init__ d_model ;;
  dropout2 <- Dropout.__init__ dropout ;;
  Ok (mk multi_head_attention norm1 dropout1 pff norm2 dropout2).

Section Forward.

(** The call [self.multi_head_attention(x, causal_mask=..., padding_mask=...)]. *)
Variable call_attention :
  MultiHeadAttention.t -> Tensor -> option Tensor -> option Tensor ->
  option Tensor -> result (Tensor * Tensor).

Definition forward_with (self : t) (training : bool) (nz : noise)
    (x : Tensor) (causal_mask mask : option Tensor) : result Tensor :=
  '(attended_x, _) <-
    call_attention (multi_head_attention self) x None mask causal_mask ;;
  x <- tensor_add x (Dropout.forward (dropout1 self) training (keep1 nz) attended_x) ;;
  x <- LayerNorm.forward (norm1 self) x ;;
  pff_x <- Sequential.forward (pff self) training [keep_pff nz] x ;;
  x <- tensor_add x (Dropout.forward (dropout2 self) training (keep2 nz) pff_x) ;;
  x <- LayerNorm.forward (norm2 self) x ;;
  Ok x.

End Forward.

Definition forward : t -> bool -> noise -> Tensor -> option Tensor ->
                     option Tensor -> result Tensor :=
  forward_with MultiHeadAttention.forward.

End EncoderBlock.

(** ** Encoder *)

Module Encoder.

Record t : Type := mk {
  encoders : list EncoderBlock.t;
  causal_mask : bool;
  seq_len : Z;
  (** the buffer [causal_mask_tensor], present only when it was registered *)
  causal_mask_tensor : option Tensor
}.

(** [[EncoderBlock(d_model, num_heads, 2 * d_model, dropout) for _ in range(num_layers)]]. *)
Fixpoint init_blocks (rnd : nat -> EncoderBlock.random) (first count : nat)
    (num_heads d_model : Z) (dropout : R) : result (list EncoderBlock.t) :=
  match count with
  | O => Ok []
  | S n =>
      e <- EncoderBlock.__init__ (rnd first) d_model num_heads (2 * d_model) dropout ;;
      rest <- init_blocks rnd (S first) n num_heads d_model dropout ;;
      Ok (e :: rest)
  end.

(** [1 - torch.triu(torch.ones(seq_len, seq_len), diagonal=1)]. *)
Definition causal_buffer (seq_len : Z) : result Tensor :=
  ones <- ones2 seq_len seq_len ;;
  upper <- triu 1 ones ;;
  Ok (rsub_scalar 1 upper).

Definition __init__ (rnd : nat -> EncoderBlock.random)
    (num_layers num_heads d_model : Z) (dropout : R) (seq_len : Z)
    (causal_mask : bool) : result t :=
  encoders <- init_blocks rnd 0 (Z.to_nat num_layers) num_heads d_model dropout ;;
  if causal_mask then
    buf <- causal_buffer seq_len ;;
    Ok (mk encoders causal_mask seq_len (Some buf))
  else Ok (mk encoders causal_mask seq_len None).

(** The attribute access [self.causal_mask_tensor]. *)
Definition get_causal_mask_tensor (self : t) : result Tensor :=
  match causal_mask_tensor self with
  | Some buf => Ok buf
  | None => Raise AttributeError
  end.

Section Forward.

Variable call_attention :
  MultiHeadAttention.t -> Tensor -> option Tensor -> option Tensor ->
  option Tensor -> result (Tensor * Tensor).

(** The loop [for e in self.encoders: x = e(x, self.causal_mask_tensor, mask)];
    [nz k] holds the dropout choices of the k-th remaining block. *)
Fixpoint loop_with (self : t) (es : list EncoderBlock.t) (training : bool)
    (nz : nat -> EncoderBlock.noise) (x : Tensor) (mask : option Tensor)
  : result Tensor :=
  match es with
  | [] => Ok x
  | e :: rest =>
      c <- get_causal_mask_tensor self ;;
      x <- EncoderBlock.forward_with call_attention e training (nz 0%nat) x (Some c) mask ;;
      loop_with self rest training (fun k => nz (S k)) x mask
  end.

Definition forward_with (self : t) (training : bool)
    (nz : nat -> EncoderBlock.noise) (x : Tensor) (mask : option Tensor)
  : result Tensor :=
  loop_with self (encoders self) training nz x mask.

End Forward.

Definition forward : t -> bool -> (nat -> EncoderBlock.noise) -> Tensor ->
                     option Tensor -> result Tensor :=
  forward_with MultiHeadAttention.forward.

End Encoder.

(** ** Embedding *)

(** A tensor of token ids. *)
Record IdTensor : Type := mkIdTensor {
  ishape : list nat;
  idata : list nat -> Z
}.

(** All the indices of a tensor of shape [s], in row-major order. *)
Fixpoint all_indices (s : list nat) : list (list nat) :=
  match s with
  | [] => [[]]
  | n :: r => flat_map (fun i => map (cons i) (all_indices r)) (seq 0 n)
  end.

Module nn_Embedding.

Record t : Type := mk {
  num_embeddings : nat;
  embedding_dim : nat;
  padding_idx : option Z;
  weight : Tensor
}.

(** [nn.Embedding(num_embeddings, embedding_dim, padding_idx=...)]: a positive
    [padding_idx] has to be below [num_embeddings], a negative one counts from
    the end; the row [padding_idx] of the drawn table [sample] is zeroed. *)
Definition __init__ (sample : list nat -> R) (num_embeddings embedding_dim : Z)
    (padding_idx : option Z) : result t :=
  if ((num_embeddings <? 0) || (embedding_dim <? 0))%Z then Raise RuntimeError
  else
    let table := mkTensor [Z.to_nat num_embeddings; Z.to_nat embedding_dim] float32 in
    match padding_idx with
    | Some i =>
        if ((0 <? i) && negb (i <? num_embeddings))%Z then Raise AssertionError
        else if ((i <? 0) && negb (- num_embeddings <=? i))%Z then Raise AssertionError
        else
          let i := (if i <? 0 then num_embeddings + i else i)%Z in
          if (i <? num_embeddings)%Z then
            Ok (mk (Z.to_nat num_embeddings) (Z.to_nat embedding_dim) (Some i)
                  (table (fun ix => if (nth 0 ix 0 =? Z.to_nat i)%nat
                                    then 0%R else sample ix)))
          else Raise IndexError
    | None =>
        Ok (mk (Z.to_nat num_embeddings) (Z.to_nat embedding_dim) None (table sample))
    end.

Definition in_range (self : t) (x : IdTensor) : bool :=
  forallb (fun ix => (0 <=? idata x ix)%Z && (idata x ix <? Z.of_nat (num_embeddings self))%Z)
          (all_indices (ishape x)).

(** The lookup [weight[x]]: an id outside the table is refused. *)
Definition forward (self : t) (x : IdTensor) : result Tensor :=
  if in_range self x then
    Ok (mkTensor (ishape x ++ [embedding_dim self]) (dtype (weight self))
          (fun ix => data (weight self)
                       [Z.to_nat (idata x (removelast ix)); last ix 0%nat]))
  else Raise IndexError.

End nn_Embedding.

Module Embedding.

Record t : Type := mk {
  embeddings : nn_Embedding.t;
  positional_embeddings : PositionalEncoding.t
}.

Definition __init__ (sample : list nat -> R) (d_model vocab_size seq_length : Z)
    (enable_padding : bool) : result t :=
  embeddings <-
    (if enable_padding then nn_Embedding.__init__ sample vocab_size d_model (Some 0%Z)
     else nn_Embedding.__init__ sample vocab_size d_model None) ;;
  positional_embeddings <- PositionalEncoding.__init__ seq_length d_model ;;
  Ok (mk embeddings positional_embeddings).

Definition forward (self : t) (x : IdTensor) : result Tensor :=
  e <- nn_Embedding.forward (embeddings self) x ;;
  p <- PositionalEncoding.forward (positional_embeddings self) (ishape x) ;;
  tensor_add e p.

End Embedding.

(** ** runner.py *)

Module runner.

Import Ascii String.

(** Python's [s.split(sep)] for a separator of one character: the pieces
    between the occurrences of [sep], empty pieces included; never an empty
    list. *)
Fixpoint py_split (sep : ascii) (s : string) : list string :=
  match s with
  | EmptyString => [EmptyString]
  | String c rest =>
      if Ascii.eqb c sep then EmptyString :: py_split sep rest
      else
        match py_split sep rest with
        | piece :: pieces => String c piece :: pieces
        | [] => [String c EmptyString]
        end
  end.

Definition slash : ascii := Ascii.ascii_of_nat 47.

(** [run_name = exp_path.split('/')[-1]] in [main]. *)
Definition run_name (exp_path : string) : string :=
  List.last (py_split slash exp_path) EmptyString.

(** The character [c] occurs in [s]. *)
Fixpoint occurs (c : ascii) (s : string) : Prop :=
  match s with
  | EmptyString => False
  | String a rest => a = c \/ occurs c rest
  end.

End runner.

(** * Specification-level definitions

    Well-formedness of modules and inputs, the quantities the properties
    speak of, and the concrete modules and inputs of the examples. *)

(** ** Well-formed modules and inputs *)

Module MHA := MultiHeadAttention.

(** A linear layer from [i] to [o] features with parameters of dtype [dt]. *)
Definition linear_wf (dt : torch_dtype) (i o : nat) (l : Linear.t) : Prop :=
  Linear.in_features l = i /\ Linear.out_features l = o
  /\ dtype (Linear.weight l) = dt.

(** An attention module of width [D]: [D = num_heads * d_head], four square
    projections, parameters of the floating dtype [dt]. *)
Record attention_wf (dt : torch_dtype) (D : nat) (self : MHA.t) : Prop := {
  float_params : dt <> int64;
  heads_nonneg : (0 <= MHA.num_heads self)%Z;
  d_head_nonneg : (0 <= MHA.d_head self)%Z;
  width_split : Z.of_nat D = (MHA.num_heads self * MHA.d_head self)%Z;
  w_q_wf : linear_wf dt D D (MHA.w_q self);
  w_k_wf : linear_wf dt D D (MHA.w_k self);
  w_v_wf : linear_wf dt D D (MHA.w_v self);
  w_out_wf : linear_wf dt D D (MHA.w_out self)
}.

(** The key and value sequence of a call: [value], or [query] when absent. *)
Definition value_of (query : Tensor) (value : option Tensor) : Tensor :=
  match value with None => query | Some v => v end.

(** Inputs of the shapes of the data model: [query] is [batch, seq_len_q, D],
    [value] is [batch, seq_len_k, D], the padding mask is [batch, seq_len_k] and
    the causal mask is [seq_len_q, seq_len_k]. *)
Record attention_input (dt : torch_dtype) (B Sq Sk D : nat)
    (query : Tensor) (value padding_mask causal_mask : option Tensor) : Prop := {
  query_shape : shape query = [B; Sq; D];
  query_dtype : dtype query = dt;
  value_shape : shape (value_of query value) = [B; Sk; D];
  value_dtype : dtype (value_of query value) = dt;
  padding_shape : match padding_mask with
                  | Some pm => shape pm = [B; Sk] | None => True end;
  causal_shape : match causal_mask with
                 | Some cm => shape cm = [Sq; Sk] | None => True end
}.

(** The projection of [x] by [l], split into heads. *)
Definition heads (self : MHA.t) (l : Linear.t) (x : Tensor)
  : result Tensor :=
  p <- Linear.forward l x ;;
  rearrange_split_heads (MHA.num_heads self) (MHA.d_head self) p.

(** The mask value at an index is zero ([None]: no mask, nothing is zero). *)
Definition zero_at (mask : option Tensor) (ix : list nat) : Prop :=
  exists m, mask = Some m /\ data m ix = 0%R.

(** The logit of query position [i] and key position [j] of batch entry [b]
    is suppressed: the padding mask is zero at [(b, j)] or the causal mask is
    zero at [(i, j)]. *)
Definition suppressed (padding_mask causal_mask : option Tensor) (b i j : nat) : Prop :=
  zero_at padding_mask [b; j] \/ zero_at causal_mask [i; j].

(** The raw logit: the scaled dot product of a query row and a key row. *)
Definition scaled_dot (self : MHA.t) (Q K : Tensor) (b h i j : nat) : R :=
  (Rsum (Z.to_nat (MHA.d_head self))
     (fun e => data Q [b; h; i; e] * data K [b; h; j; e])
   / sqrt (IZR (MHA.d_head self)))%R.

(** A layer normalisation over the last axis of size [D]. *)
Definition layernorm_wf (dt : torch_dtype) (D : nat) (ln : LayerNorm.t) : Prop :=
  LayerNorm.normalized_shape ln = D /\ dtype (LayerNorm.weight ln) = dt.

(** An encoder block of width [D] with inner width [F]: the feed-forward part
    is the sequence linear, dropout, ReLU, linear. *)
Record block_wf (dt : torch_dtype) (D F : nat) (l0 : Linear.t) (d1 : Dropout.t)
    (l3 : Linear.t) (blk : EncoderBlock.t) : Prop := {
  block_attention : attention_wf dt D (EncoderBlock.multi_head_attention blk);
  block_norm1 : layernorm_wf dt D (EncoderBlock.norm1 blk);
  block_norm2 : layernorm_wf dt D (EncoderBlock.norm2 blk);
  block_pff : EncoderBlock.pff blk
              = [LinearLayer l0; DropoutLayer d1; ReLULayer; LinearLayer l3];
  block_pff0 : linear_wf dt D F l0;
  block_pff3 : linear_wf dt F D l3
}.

(** The block as the two formulas
    [x' = LayerNorm(x + Dropout(SelfAttention(x, causal_mask, padding_mask)))]
    and [x'' = LayerNorm(x' + Dropout(Linear2(ReLU(Dropout(Linear1(x'))))))]. *)
Definition encoder_block_spec (blk : EncoderBlock.t) (Linear1 : Linear.t)
    (InnerDropout : Dropout.t) (Linear2 : Linear.t) (training : bool)
    (nz : EncoderBlock.noise) (x : Tensor) (causal_mask padding_mask : option Tensor)
  : result Tensor :=
  let SelfAttention := fun x =>
    fmap fst (MHA.forward (EncoderBlock.multi_head_attention blk) x None
                padding_mask causal_mask) in
  let Dropout1 :=
    Dropout.forward (EncoderBlock.dropout1 blk) training (EncoderBlock.keep1 nz) in
  let Dropout2 :=
    Dropout.forward (EncoderBlock.dropout2 blk) training (EncoderBlock.keep2 nz) in
  let Dropout_inner :=
    Dropout.forward InnerDropout training (EncoderBlock.keep_pff nz) in
  a <- SelfAttention x ;;
  s <- tensor_add x (Dropout1 a) ;;
  x' <- LayerNorm.forward (EncoderBlock.norm1 blk) s ;;
  h <- Linear.forward Linear1 x' ;;
  f <- Linear.forward Linear2 (relu (Dropout_inner h)) ;;
  s' <- tensor_add x' (Dropout2 f) ;;
  LayerNorm.forward (EncoderBlock.norm2 blk) s'.

(** An embedding of width [D] whose positional table has [L] rows. *)
Definition embedding_wf (L D : nat) (self : Embedding.t) : Prop :=
  nn_Embedding.embedding_dim (Embedding.embeddings self) = D
  /\ shape (PositionalEncoding.pe (Embedding.positional_embeddings self)) = [1; L; D]%nat.

(** The attention call with its second result replaced by [tamper]. *)
Definition tampered_attention (tamper : Tensor -> Tensor) (m : MHA.t) (query : Tensor)
    (value padding_mask causal_mask : option Tensor) : result (Tensor * Tensor) :=
  fmap (fun ow => (fst ow, tamper (snd ow)))
       (MHA.forward m query value padding_mask causal_mask).

(** ** Concrete modules and inputs *)

(** A linear layer with every weight [w] and no bias. *)
Definition example_linear (i o : nat) (w : R) : Linear.t :=
  Linear.mk i o (mkTensor [o; i] float32 (fun _ => w))
                (mkTensor [o] float32 (fun _ => 0%R)).

(** An attention module of width one whose query and key projections are
    large and of opposite sign, and a sequence of two tokens. *)
Definition steep_attention : MHA.t :=
  MHA.mk 1 1 (example_linear 1 1 1e8) (example_linear 1 1 (-1e8))
         (example_linear 1 1 1) (example_linear 1 1 1).

Definition two_tokens : Tensor :=
  mkTensor [1; 2; 1]%nat float32 (fun ix => if (nth 1 ix 0 =? 0)%nat then 1%R else 0%R).

(** Draws that are all zero. *)
Definition zero_attention_random : MHA.random :=
  MHA.mk_random (fun _ => 0%R) (fun _ => 0%R) (fun _ => 0%R)
                (fun _ => 0%R) (fun _ => 0%R) (fun _ => 0%R).

Definition zero_random : EncoderBlock.random :=
  EncoderBlock.mk_random zero_attention_random
    (fun _ => 0%R) (fun _ => 0%R) (fun _ => 0%R) (fun _ => 0%R).

Definition example_padding : Tensor :=
  mkTensor [1; 2]%nat int64 (fun ix => if (nth 1 ix 0 =? 0)%nat then 0%R else 1%R).

Definition example_causal : Tensor :=
  rsub_scalar 1
    (mkTensor [2; 2]%nat float32
       (fun ix =>
          if (1 <=? Z.of_nat (nth 1 ix 0%nat) - Z.of_nat (nth 0 ix 0%nat))%Z
          then 1%R else 0%R)).

Definition example_norm : LayerNorm.t :=
  LayerNorm.mk 1 1e-5%R (mkTensor [1]%nat float32 (fun _ => 1%R))
                        (mkTensor [1]%nat float32 (fun _ => 0%R)).

Definition example_block : EncoderBlock.t :=
  EncoderBlock.mk steep_attention example_norm (Dropout.mk 0)
    [LinearLayer (example_linear 1 2 1); DropoutLayer (Dropout.mk 0); ReLULayer;
     LinearLayer (example_linear 2 1 1)]
    example_norm (Dropout.mk 0).

Definition example_noise : EncoderBlock.noise :=
  EncoderBlock.mk_noise (fun _ => true) (fun _ => true) (fun _ => true).


Definition example_positional : PositionalEncoding.t :=
  match PositionalEncoding.__init__ 4 2 with
  | Ok m => m
  | Raise _ => PositionalEncoding.mk 4 2 (mkTensor [] float32 (fun _ => 0%R))
  end.

Definition example_embedding : Embedding.t :=
  Embedding.mk
    (nn_Embedding.mk 3 2 (Some 0%Z)
       (mkTensor [3; 2]%nat float32
          (fun ix => if (nth 0 ix 0 =? 0)%nat then 0%R else 1%R)))
    example_positional.

Definition example_ids : IdTensor :=
  mkIdTensor [1; 2]%nat (fun ix => if (nth 1 ix 0 =? 0)%nat then 2%Z else 0%Z).

(** ** Further quantities and concrete inputs *)

(** Entry [o] of the projection of row [(b, s)] of [x] by the linear layer [l]. *)
Definition projected (l : Linear.t) (x : Tensor) (b s o : nat) : R :=
  (Rsum (Linear.in_features l)
     (fun k => data x [b; s; k] * data (Linear.weight l) [o; k])
   + data (Linear.bias l) [o])%R.

(** What follows the raw logits in [MultiHeadAttention.forward]. *)
Definition attend (self : MHA.t) (logits V : Tensor)
    (padding_mask causal_mask : option Tensor) : result (Tensor * Tensor) :=
  masked <- MHA._apply_mask logits padding_mask causal_mask ;;
  output <- matmul (softmax_last masked) V ;;
  output <- rearrange_merge_heads output ;;
  output <- Linear.forward (MHA.w_out self) output ;;
  Ok (output, softmax_last masked).

(** Padding masks of one batch entry and two positions: every position
    padded, and no position padded. *)
Definition all_padded : Tensor := mkTensor [1; 2]%nat int64 (fun _ => 0%R).

Definition none_padded : Tensor := mkTensor [1; 2]%nat int64 (fun _ => 1%R).

(** Two batches of two entries that agree on entry 0 only. *)
Definition batch_a : Tensor :=
  mkTensor [2; 2; 1]%nat float32 (fun ix => if (nth 0 ix 0 =? 0)%nat then 1%R else 5%R).

Definition batch_b : Tensor :=
  mkTensor [2; 2; 1]%nat float32 (fun ix => if (nth 0 ix 0 =? 0)%nat then 1%R else 7%R).

Definition long_ids : IdTensor := mkIdTensor [1; 5]%nat (fun _ => 1%Z).

Definition example_attention : MHA.t :=
  match MHA.__init__ zero_attention_random 2 8 with
  | Ok m => m
  | Raise _ => steep_attention
  end.

Definition example_padded_embedding : Embedding.t :=
  match Embedding.__init__ (fun _ => 1%R) 2 3 4 true with
  | Ok e => e
  | Raise _ => example_embedding
  end.

Definition example_noncausal_encoder : Encoder.t :=
  match Encoder.__init__ (fun _ => zero_random) 1 1 1 0 2 false with
  | Ok enc => enc
  | Raise _ => Encoder.mk [] false 2 None
  end.

(** * Properties *)

(** ** Shapes and broadcasting *)

Lemma bsel (n p : nat) : (p < n)%nat -> (if n =? 1 then 0%nat else p) = p.
Proof. intros H. destruct (Nat.eqb_spec n 1); lia. Qed.

Lemma shape_eqb_refl (s : list nat) : shape_eqb s s = true.
Proof. unfold shape_eqb. destruct (list_eq_dec Nat.eq_dec s s); congruence. Qed.

Lemma dtype_eqb_refl (a : torch_dtype) : dtype_eqb a a = true.
Proof. destruct a; reflexivity. Qed.

Lemma promote_idem (a : torch_dtype) : promote a a = a.
Proof. destruct a; reflexivity. Qed.

Ltac eqb_cases :=
  repeat match goal with
         | |- context [?a =? ?b] => destruct (Nat.eqb_spec a b); subst
         end.

Ltac bcast_tac :=
  unfold broadcast_shapes; cbn [rev app broadcast_rev];
  rewrite ?Nat.eqb_refl; cbn [rev app option_map];
  eqb_cases; first [reflexivity | congruence | lia].

Lemma broadcast_col_row (n d : nat) : broadcast_shapes [n; 1]%nat [d] = Some [n; d].
Proof. bcast_tac. Qed.

Lemma broadcast_same2 (a b : nat) : broadcast_shapes [a; b] [a; b] = Some [a; b].
Proof. bcast_tac. Qed.

Lemma broadcast_same3 (a b c : nat) : broadcast_shapes [a; b; c] [a; b; c] = Some [a; b; c].
Proof. bcast_tac. Qed.

Lemma broadcast_batch1 (a b c : nat) :
  broadcast_shapes [a; b; c] [1; b; c]%nat = Some [a; b; c].
Proof. bcast_tac. Qed.

Lemma broadcast_padding (b h q k : nat) :
  broadcast_shapes [b; h; q; k] [b; 1; 1; k]%nat = Some [b; h; q; k].
Proof. bcast_tac. Qed.

Lemma broadcast_causal (b h q k : nat) :
  broadcast_shapes [b; h; q; k] [q; k] = Some [b; h; q; k].
Proof. bcast_tac. Qed.

(** ** Finite sums *)





(** ** PositionalEncoding *)

Lemma even_column (dim : nat) :
  Nat.even dim = true -> (dim - 0) mod 2 = 0%nat /\ (0 + (dim - 0) / 2 * 2 = dim)%nat
                         /\ ((1 <=? dim) && ((dim - 1) mod 2 =? 0))%nat = false.
Proof.
  intros H. apply Nat.even_spec in H. destruct H as [k ->].
  rewrite Nat.sub_0_r.
  assert (H0 : ((2 * k) mod 2 = 0)%nat) by (rewrite Nat.mul_comm; apply Nat.Div0.mod_mul).
  assert (H1 : ((2 * k) / 2 = k)%nat) by (rewrite Nat.mul_comm; apply Nat.div_mul; lia).
  repeat split; [exact H0 | rewrite H1; lia |].
  destruct k as [|k]; [reflexivity|].
  apply andb_false_iff; right. apply Nat.eqb_neq.
  replace (2 * S k - 1)%nat with (1 + k * 2)%nat by lia.
  rewrite Nat.Div0.mod_add. cbn. lia.
Qed.

Lemma odd_column (dim : nat) :
  Nat.even dim = false -> ((1 <=? dim) && ((dim - 1) mod 2 =? 0))%nat = true
                          /\ (1 + (dim - 1) / 2 * 2 = dim)%nat.
Proof.
  intros H.
  assert (Ho : Nat.odd dim = true) by (unfold Nat.odd; rewrite H; reflexivity).
  apply Nat.odd_spec in Ho. destruct Ho as [k ->].
  replace (2 * k + 1 - 1)%nat with (k * 2)%nat by lia.
  rewrite Nat.Div0.mod_mul, Nat.div_mul by lia.
  split; [|lia].
  apply andb_true_iff; split; [apply Nat.leb_le; lia | reflexivity].
Qed.

Lemma positional_reset_ok (seq_length d_model : Z) :
  (0 <= seq_length)%Z -> (0 < d_model)%Z ->
  exists pe, PositionalEncoding._reset_parameters seq_length d_model = Ok pe
    /\ shape pe = [1; Z.to_nat seq_length; Z.to_nat d_model]%nat
    /\ forall pos dim, (pos < Z.to_nat seq_length)%nat -> (dim < Z.to_nat d_model)%nat ->
         data pe [0; pos; dim]%nat =
           if Nat.even dim
           then sin (INR pos / Rpower 10000 (2 * INR dim / IZR d_model))
           else cos (INR pos / Rpower 10000 (2 * INR dim / IZR d_model)).
Proof.
  intros Hs Hd.
  unfold PositionalEncoding._reset_parameters.
  unfold zeros2, full2.
  replace ((seq_length <? 0)%Z || (d_model <? 0)%Z) with false.
  2:{ symmetry. apply orb_false_iff. split; apply Z.ltb_ge; lia. }
  cbn [bind].
  unfold rearrange_col. cbn [arange shape bind].
  unfold py_truediv.
  destruct (Z.eqb_spec d_model 0); [lia|].
  cbn [bind].
  unfold tensor_div, map2_tensor. cbn [shape pow_scalar mul_scalar arange].
  rewrite broadcast_col_row. cbn [bind].
  unfold slice_cols, set_cols, slice_cols. cbn [shape map_tensor bind dtype].
  rewrite !shape_eqb_refl. cbn [bind shape dtype].
  rewrite !shape_eqb_refl. cbn [bind shape dtype].
  unfold rearrange_unsqueeze0. cbn [shape].
  eexists. split; [reflexivity|]. split; [reflexivity|].
  intros pos dim Hp Hdim.
  cbn [data nth].
  assert (Hexp : forall j : nat, (2 / IZR d_model * INR j = 2 * INR j / IZR d_model)%R).
  { intros j. field. apply not_0_IZR. lia. }
  assert (Hpos : (if Z.to_nat seq_length =? 1 then 0 else pos)%nat = pos)
    by (apply bsel; lia).
  assert (Hcol : (if Z.to_nat d_model =? 1 then 0 else dim)%nat = dim)
    by (apply bsel; lia).
  destruct (Nat.even dim) eqn:Hev.
  - destruct (even_column dim Hev) as (Hm & Hq & Hodd).
    rewrite Hodd, Hm. cbn [Nat.leb andb Nat.eqb].
    rewrite Hq. cbn [map_tensor data bcast_index length Nat.sub skipn combine map fst snd nth].
    rewrite Hpos, Hcol. cbn [arange pow_scalar mul_scalar data nth].
    rewrite Hexp. reflexivity.
  - destruct (odd_column dim Hev) as (Hodd & Hq).
    rewrite Hodd, Hq.
    cbn [map_tensor data bcast_index length Nat.sub skipn combine map fst snd nth].
    rewrite Hpos, Hcol. cbn [arange pow_scalar mul_scalar data nth].
    rewrite Hexp. reflexivity.
Qed.

Lemma positional_init_inv (seq_length d_model : Z) (m : PositionalEncoding.t) :
  PositionalEncoding.__init__ seq_length d_model = Ok m ->
  (0 <= seq_length)%Z /\ (0 < d_model)%Z
  /\ shape (PositionalEncoding.pe m) = [1; Z.to_nat seq_length; Z.to_nat d_model]%nat.
Proof.
  intros H.
  assert (Hdims : (0 <= seq_length)%Z /\ (0 < d_model)%Z).
  { unfold PositionalEncoding.__init__, PositionalEncoding._reset_parameters,
      zeros2, full2, py_truediv in H.
    destruct (Z.ltb_spec seq_length 0); [discriminate|].
    destruct (Z.ltb_spec d_model 0); [discriminate|].
    cbn [orb bind] in H. unfold rearrange_col in H. cbn [arange shape bind] in H.
    destruct (Z.eqb_spec d_model 0); [discriminate|]. lia. }
  destruct Hdims as (Hs & Hd). split; [exact Hs|]. split; [exact Hd|].
  destruct (positional_reset_ok seq_length d_model Hs Hd) as (pe & Hpe & Hshape & _).
  unfold PositionalEncoding.__init__ in H. rewrite Hpe in H. cbn [bind] in H.
  injection H as <-. exact Hshape.
Qed.

(** C1. For a sequence length [seq_length >= 0] and a width [d_model > 0] the
    construction succeeds and stores a table of shape
    [1, seq_length, d_model] whose entry at position [pos] and column [dim] is
    [sin (pos / 10000^(2*dim/d_model))] when [dim] is even and
    [cos (pos / 10000^(2*dim/d_model))] when [dim] is odd: every column uses
    its own index in the exponent.  The table is built by the constructor
    and is a function of the two parameters only. *)
Theorem positional_table_formula (seq_length d_model : Z) (pos dim : nat) :
  (0 < d_model)%Z -> (Z.of_nat pos < seq_length)%Z -> (Z.of_nat dim < d_model)%Z ->
  exists m, PositionalEncoding.__init__ seq_length d_model = Ok m /\
    shape (PositionalEncoding.pe m) = [1; Z.to_nat seq_length; Z.to_nat d_model]%nat /\
    data (PositionalEncoding.pe m) [0; pos; dim]%nat =
      if Nat.even dim
      then sin (INR pos / Rpower 10000 (2 * INR dim / IZR d_model))
      else cos (INR pos / Rpower 10000 (2 * INR dim / IZR d_model)).
Proof.
  intros Hd Hp Hdim.
  destruct (positional_reset_ok seq_length d_model ltac:(lia) Hd)
    as (pe & Hpe & Hshape & Hdata).
  exists (PositionalEncoding.mk seq_length d_model pe).
  unfold PositionalEncoding.__init__. rewrite Hpe. cbn [bind PositionalEncoding.pe].
  split; [reflexivity|]. split; [exact Hshape|].
  apply Hdata; lia.
Qed.

Lemma positional_table_formula_witness :
  exists m, PositionalEncoding.__init__ 4 8 = Ok m /\
    shape (PositionalEncoding.pe m) = [1; 4; 8]%nat /\
    data (PositionalEncoding.pe m) [0; 3; 5]%nat
    = cos (INR 3 / Rpower 10000 (2 * INR 5 / 8)).
Proof.
  apply (positional_table_formula 4 8 3 5); lia.
Defined.

(** ** Reading a broadcast operand *)

Lemma bidx2 (q k i j : nat) : (i < q)%nat -> (j < k)%nat ->
  bcast_index [q; k] [i; j] = [i; j].
Proof. intros. cbn. now rewrite !bsel. Qed.

Lemma bidx3 (a q k b i j : nat) : (b < a)%nat -> (i < q)%nat -> (j < k)%nat ->
  bcast_index [a; q; k] [b; i; j] = [b; i; j].
Proof. intros. cbn. now rewrite !bsel. Qed.

Lemma bidx4 (a h q k b c i j : nat) :
  (b < a)%nat -> (c < h)%nat -> (i < q)%nat -> (j < k)%nat ->
  bcast_index [a; h; q; k] [b; c; i; j] = [b; c; i; j].
Proof. intros. cbn. now rewrite !bsel. Qed.

Lemma bidx_causal (q k b c i j : nat) : (i < q)%nat -> (j < k)%nat ->
  bcast_index [q; k] [b; c; i; j] = [i; j].
Proof. intros. cbn. now rewrite !bsel. Qed.

Lemma bidx_padding (a k b c i j : nat) : (b < a)%nat -> (j < k)%nat ->
  bcast_index [a; 1; 1; k]%nat [b; c; i; j] = [b; 0; 0; j]%nat.
Proof. intros. cbn. now rewrite !bsel. Qed.

Lemma bidx_batch1 (q k b i j : nat) : (i < q)%nat -> (j < k)%nat ->
  bcast_index [1; q; k]%nat [b; i; j] = [0; i; j]%nat.
Proof. intros. cbn. now rewrite !bsel. Qed.

(** ** MultiHeadAttention: the stages of the forward pass *)

Lemma linear_forward3 (dt : torch_dtype) (i o B S : nat) (l : Linear.t) (x : Tensor) :
  linear_wf dt i o l -> shape x = [B; S; i] -> dtype x = dt ->
  Linear.forward l x =
  Ok (mkTensor [B; S; o] dt
        (fun ix =>
           (Rsum i (fun k => data x (removelast ix ++ [k])
                             * data (Linear.weight l) [last ix 0%nat; k])
            + data (Linear.bias l) [last ix 0%nat])%R)).
Proof.
  intros (Hi & Ho & Hdt) Hs Hx. unfold Linear.forward.
  rewrite Hs, Hx, Hdt, Hi, Ho. cbn [rev app].
  rewrite dtype_eqb_refl, Nat.eqb_refl. reflexivity.
Qed.

Lemma split_heads_ok (nh dh : Z) (B S D : nat) (x : Tensor) :
  (0 <= nh)%Z -> (0 <= dh)%Z -> Z.of_nat D = (nh * dh)%Z -> shape x = [B; S; D] ->
  rearrange_split_heads nh dh x =
  Ok (mkTensor [B; Z.to_nat nh; S; Z.to_nat dh] (dtype x)
        (fun ix => data x [nth 0 ix 0; nth 2 ix 0;
                           nth 1 ix 0 * Z.to_nat dh + nth 3 ix 0]%nat)).
Proof.
  intros Hn Hd HD Hs. unfold rearrange_split_heads. rewrite Hs.
  replace ((0 <=? nh)%Z && (0 <=? dh)%Z && (Z.of_nat D =? nh * dh)%Z) with true;
    [reflexivity|].
  symmetry. rewrite !andb_true_iff. repeat split;
    [apply Z.leb_le; lia | apply Z.leb_le; lia | apply Z.eqb_eq; lia].
Qed.

Ltac mask_cases Hsup :=
  first
    [ reflexivity
    | exfalso; apply Hsup; solve [left; eauto | right; eauto]
    | let m := fresh "m" in let Hm := fresh "Hm" in let H0 := fresh "H0" in
      destruct Hsup as [(m & Hm & H0)|(m & Hm & H0)];
      first [discriminate | injection Hm as <-; contradiction] ].

Lemma apply_mask_ok (B H Sq Sk : nat) (logits : Tensor)
    (padding_mask causal_mask : option Tensor) :
  shape logits = [B; H; Sq; Sk] ->
  match padding_mask with Some pm => shape pm = [B; Sk] | None => True end ->
  match causal_mask with Some cm => shape cm = [Sq; Sk] | None => True end ->
  exists masked,
    MHA._apply_mask logits padding_mask causal_mask = Ok masked
    /\ shape masked = [B; H; Sq; Sk]
    /\ dtype masked = dtype logits
    /\ forall b h i j, (b < B)%nat -> (h < H)%nat -> (i < Sq)%nat -> (j < Sk)%nat ->
         (suppressed padding_mask causal_mask b i j ->
          data masked [b; h; i; j] = MHA.large_neg_value (dtype logits))
         /\ (~ suppressed padding_mask causal_mask b i j ->
             data masked [b; h; i; j] = data logits [b; h; i; j]).
Proof.
  intros Hs Hp Hc. unfold MHA._apply_mask, suppressed, zero_at.
  destruct padding_mask as [pm|], causal_mask as [cm|].
  - unfold rearrange_padding. rewrite Hp. cbn [bind].
    unfold masked_fill_eq0 at 1. cbn [shape]. rewrite Hs, broadcast_padding. cbn [bind].
    unfold masked_fill_eq0. cbn [shape]. rewrite Hc, broadcast_causal. cbn [bind].
    eexists. split; [reflexivity|]. split; [reflexivity|]. split; [reflexivity|].
    intros b h i j Hb Hh Hi Hj. cbn [data dtype].
    rewrite (bidx_causal Sq Sk b h i j Hi Hj), (bidx4 B H Sq Sk b h i j Hb Hh Hi Hj),
      (bidx_padding B Sk b h i j Hb Hj). cbn [nth].
    destruct (Req_dec_T (data cm [i; j]) 0) as [Hz|Hz];
      destruct (Req_dec_T (data pm [b; j]) 0) as [Hy|Hy]; split; intros Hsup;
      cbn [data]; rewrite ?(bidx4 B H Sq Sk b h i j Hb Hh Hi Hj); mask_cases Hsup.
  - unfold rearrange_padding. rewrite Hp. cbn [bind].
    unfold masked_fill_eq0. cbn [shape]. rewrite Hs, broadcast_padding. cbn [bind].
    eexists. split; [reflexivity|]. split; [reflexivity|]. split; [reflexivity|].
    intros b h i j Hb Hh Hi Hj. cbn [data dtype].
    rewrite (bidx4 B H Sq Sk b h i j Hb Hh Hi Hj), (bidx_padding B Sk b h i j Hb Hj).
    cbn [nth].
    destruct (Req_dec_T (data pm [b; j]) 0) as [Hy|Hy]; split; intros Hsup;
      mask_cases Hsup.
  - cbn [bind]. unfold masked_fill_eq0. rewrite Hs, Hc, broadcast_causal.
    eexists. split; [reflexivity|]. split; [reflexivity|]. split; [reflexivity|].
    intros b h i j Hb Hh Hi Hj. cbn [data dtype].
    rewrite (bidx_causal Sq Sk b h i j Hi Hj), (bidx4 B H Sq Sk b h i j Hb Hh Hi Hj).
    destruct (Req_dec_T (data cm [i; j]) 0) as [Hz|Hz]; split; intros Hsup;
      mask_cases Hsup.
  - cbn [bind]. exists logits. split; [reflexivity|]. split; [exact Hs|].
    split; [reflexivity|].
    intros b h i j _ _ _ _. split; [|reflexivity].
    intros [(m & Hm & _)|(m & Hm & _)]; discriminate.
Qed.

Lemma promote_float_id (dt : torch_dtype) : dt <> int64 -> promote_float dt = dt.
Proof. destruct dt; intros H; [contradiction| | |]; reflexivity. Qed.

Lemma matmul4 (dt : torch_dtype) (b h m k n : nat) (x y : Tensor) :
  shape x = [b; h; m; k] -> shape y = [b; h; k; n] -> dtype x = dt -> dtype y = dt ->
  matmul x y =
  Ok (mkTensor [b; h; m; n] dt
        (fun ix =>
           let bh := [nth 0 ix 0%nat; nth 1 ix 0%nat] in
           Rsum k (fun e =>
             (data x (bcast_index [b; h] bh ++ [nth 2 ix 0%nat; e])
              * data y (bcast_index [b; h] bh ++ [e; nth 3 ix 0%nat]))%R))).
Proof.
  intros Hx Hy Hdx Hdy. unfold matmul. rewrite Hx, Hy, Hdx, Hdy.
  rewrite dtype_eqb_refl, Nat.eqb_refl, broadcast_same2. reflexivity.
Qed.

Lemma attention_forward_stages (dt : torch_dtype) (B Sq Sk D : nat) (self : MHA.t)
    (query : Tensor) (value padding_mask causal_mask : option Tensor) :
  attention_wf dt D self ->
  attention_input dt B Sq Sk D query value padding_mask causal_mask ->
  exists Q K logits masked out,
    heads self (MHA.w_q self) query = Ok Q
    /\ heads self (MHA.w_k self) (value_of query value) = Ok K
    /\ shape logits = [B; Z.to_nat (MHA.num_heads self); Sq; Sk]
    /\ dtype logits = dt
    /\ (forall b h i j, (b < B)%nat -> (h < Z.to_nat (MHA.num_heads self))%nat ->
          (i < Sq)%nat -> (j < Sk)%nat ->
          data logits [b; h; i; j] = scaled_dot self Q K b h i j
          /\ (suppressed padding_mask causal_mask b i j ->
              data masked [b; h; i; j] = MHA.large_neg_value dt)
          /\ (~ suppressed padding_mask causal_mask b i j ->
              data masked [b; h; i; j] = data logits [b; h; i; j]))
    /\ MHA._apply_mask logits padding_mask causal_mask = Ok masked
    /\ shape masked = [B; Z.to_nat (MHA.num_heads self); Sq; Sk]
    /\ MHA.forward self query value padding_mask causal_mask
       = Ok (out, softmax_last masked)
    /\ shape out = [B; Sq; D]
    /\ dtype out = dt.
Proof.
  intros [Hfl Hn Hd HD Hq Hk Hv Ho] [Hqs Hqd Hvs Hvd Hp Hc].
  set (H := Z.to_nat (MHA.num_heads self)). set (E := Z.to_nat (MHA.d_head self)).
  assert (HE : (H * E)%nat = D) by (subst H E; nia).
  unfold heads, MHA.forward.
  change (match value with None => query | Some v => v end) with (value_of query value).
  rewrite (linear_forward3 dt D D B Sq _ query Hq Hqs Hqd).
  rewrite (linear_forward3 dt D D B Sk _ _ Hk Hvs Hvd).
  rewrite (linear_forward3 dt D D B Sk _ _ Hv Hvs Hvd).
  cbn [bind].
  rewrite !(split_heads_ok _ _ B Sq D) by (assumption || reflexivity).
  rewrite !(split_heads_ok _ _ B Sk D) by (assumption || reflexivity).
  cbn [bind]. fold H E.
  unfold rearrange_transpose. cbn [shape bind dtype].
  erewrite (matmul4 dt B H Sq E Sk) by reflexivity. cbn [bind].
  match goal with
  | |- context [MHA._apply_mask ?l _ _] => set (logits := l)
  end.
  assert (Hls : shape logits = [B; H; Sq; Sk]) by reflexivity.
  assert (Hld : dtype logits = dt) by (subst logits; cbn; now apply promote_float_id).
  destruct (apply_mask_ok B H Sq Sk logits padding_mask causal_mask Hls Hp Hc)
    as (masked & Hm & Hms & Hmd & Hpt).
  rewrite Hm. cbn [bind].
  erewrite (matmul4 dt B H Sq Sk E);
    [|cbn [shape softmax_last]; exact Hms | reflexivity
     |cbn [dtype softmax_last]; congruence | reflexivity].
  cbn [bind].
  unfold rearrange_merge_heads. cbn [shape bind dtype].
  erewrite (linear_forward3 dt D D B Sq _ _ Ho); [|cbn [shape]; now rewrite HE | reflexivity].
  cbn [bind].
  do 5 eexists.
  split; [reflexivity|]. split; [reflexivity|].
  split; [exact Hls|]. split; [exact Hld|].
  split; [|split; [exact Hm|split; [exact Hms|split; [reflexivity|split; reflexivity]]]].
  intros b h i j Hb Hh Hi Hj.
  split; [|rewrite <- Hld; now apply Hpt].
  subst logits. unfold scaled_dot. cbn [div_scalar data nth last shape].
  rewrite (bidx2 B H b h Hb Hh). cbn [app].
  replace (INR E) with (IZR (MHA.d_head self))
    by (subst E; rewrite INR_IZR_INZ, Z2Nat.id by assumption; reflexivity).
  reflexivity.
Qed.

Lemma large_neg_value_cases (dt : torch_dtype) :
  MHA.large_neg_value dt = (-9e15)%R \/ MHA.large_neg_value dt = (-1e4)%R.
Proof. unfold MHA.large_neg_value. destruct (dtype_eqb dt float32); auto. Qed.

(** C3. On inputs of the shapes of the data model the forward pass succeeds;
    the raw logit of query position [i] and key position [j] in head [h] is
    the dot product of the projected, head-split query and key rows divided by
    [sqrt d_head]; the logits that reach the softmax are the raw ones except
    where the padding mask is zero at [(b, j)] (for every head and query
    position) or the causal mask is zero at [(i, j)]: there, and only there,
    the logit is the large negative constant. *)
Theorem attention_logits_scaled_and_masked (dt : torch_dtype) (B Sq Sk D : nat)
    (self : MHA.t) (query : Tensor) (value padding_mask causal_mask : option Tensor) :
  attention_wf dt D self ->
  attention_input dt B Sq Sk D query value padding_mask causal_mask ->
  exists Q K logits masked out,
    heads self (MHA.w_q self) query = Ok Q
    /\ heads self (MHA.w_k self) (value_of query value) = Ok K
    /\ MHA._apply_mask logits padding_mask causal_mask = Ok masked
    /\ MHA.forward self query value padding_mask causal_mask
       = Ok (out, softmax_last masked)
    /\ (MHA.large_neg_value dt = (-9e15)%R \/ MHA.large_neg_value dt = (-1e4)%R)
    /\ forall b h i j, (b < B)%nat -> (h < Z.to_nat (MHA.num_heads self))%nat ->
         (i < Sq)%nat -> (j < Sk)%nat ->
         data logits [b; h; i; j] =
           (Rsum (Z.to_nat (MHA.d_head self))
              (fun e => data Q [b; h; i; e] * data K [b; h; j; e])
            / sqrt (IZR (MHA.d_head self)))%R
         /\ (suppressed padding_mask causal_mask b i j ->
             data masked [b; h; i; j] = MHA.large_neg_value dt)
         /\ (~ suppressed padding_mask causal_mask b i j ->
             data masked [b; h; i; j] = data logits [b; h; i; j]).
Proof.
  intros Hwf Hin.
  destruct (attention_forward_stages dt B Sq Sk D self query value padding_mask
              causal_mask Hwf Hin)
    as (Q & K & logits & masked & out & HQ & HK & _ & _ & Hpt & Hm & _ & Hf & _).
  exists Q, K, logits, masked, out.
  repeat (split; [assumption || apply large_neg_value_cases|]).
  exact Hpt.
Qed.



(** ** The causal mask *)

Lemma causal_buffer_ok (seq_len : Z) :
  (0 <= seq_len)%Z ->
  Encoder.causal_buffer seq_len =
  Ok (rsub_scalar 1
        (mkTensor [Z.to_nat seq_len; Z.to_nat seq_len] float32
           (fun ix =>
              if (1 <=? Z.of_nat (nth 1 ix 0%nat) - Z.of_nat (nth 0 ix 0%nat))%Z
              then 1%R else 0%R))).
Proof.
  intros Hn. unfold Encoder.causal_buffer, ones2, full2.
  replace ((seq_len <? 0)%Z || (seq_len <? 0)%Z) with false
    by (symmetry; apply orb_false_iff; split; apply Z.ltb_ge; lia).
  reflexivity.
Qed.

Lemma causal_buffer_inv (seq_len : Z) (cm : Tensor) :
  Encoder.causal_buffer seq_len = Ok cm ->
  shape cm = [Z.to_nat seq_len; Z.to_nat seq_len]
  /\ forall i j, data cm [i; j] = if (j <=? i)%nat then 1%R else 0%R.
Proof.
  intros H.
  destruct (Z.ltb_spec seq_len 0) as [Hneg|Hpos].
  - unfold Encoder.causal_buffer, ones2, full2 in H.
    replace ((seq_len <? 0)%Z || (seq_len <? 0)%Z) with true in H
      by (symmetry; apply orb_true_iff; left; apply Z.ltb_lt; lia).
    discriminate.
  - rewrite (causal_buffer_ok seq_len Hpos) in H. injection H as <-.
    split; [reflexivity|].
    intros i j. cbn [rsub_scalar data nth].
    destruct (Nat.leb_spec j i) as [Hle|Hgt].
    + destruct (Z.leb_spec 1 (Z.of_nat j - Z.of_nat i)); [lia | lra].
    + destruct (Z.leb_spec 1 (Z.of_nat j - Z.of_nat i)); [lra | lia].
Qed.




(** ** Construction *)

Lemma linear_init_ok (w b : list nat -> R) (i o : Z) :
  (0 <= i)%Z -> (0 <= o)%Z ->
  Linear.__init__ w b i o =
  Ok (Linear.mk (Z.to_nat i) (Z.to_nat o)
        (mkTensor [Z.to_nat o; Z.to_nat i] float32 w)
        (mkTensor [Z.to_nat o] float32 b)).
Proof.
  intros Hi Ho. unfold Linear.__init__.
  replace ((i <? 0)%Z || (o <? 0)%Z) with false; [reflexivity|].
  symmetry. apply orb_false_iff. split; apply Z.ltb_ge; assumption.
Qed.

Lemma reset_linear_ok (sample : list nat -> R) (i o : nat) (w b : Tensor) :
  shape w = [o; i] -> (0 < i)%nat ->
  MHA.reset_linear sample (Linear.mk i o w b)
  = Ok (Linear.mk i o (mkTensor [o; i] (dtype w) sample) (fill_ 0 b)).
Proof.
  intros Hs Hi. unfold MHA.reset_linear, xavier_uniform_. cbn [Linear.weight].
  rewrite Hs. destruct (Nat.eqb_spec (i + o) 0); [lia|]. reflexivity.
Qed.

Lemma attention_init_ok (rnd : MHA.random) (num_heads d_model : Z) :
  (0 < d_model)%Z -> num_heads <> 0%Z -> (d_model mod num_heads = 0)%Z ->
  exists self, MHA.__init__ rnd num_heads d_model = Ok self
    /\ MHA.num_heads self = num_heads
    /\ MHA.d_head self = Z.quot d_model num_heads
    /\ linear_wf float32 (Z.to_nat d_model) (Z.to_nat d_model) (MHA.w_q self)
    /\ linear_wf float32 (Z.to_nat d_model) (Z.to_nat d_model) (MHA.w_k self)
    /\ linear_wf float32 (Z.to_nat d_model) (Z.to_nat d_model) (MHA.w_v self)
    /\ linear_wf float32 (Z.to_nat d_model) (Z.to_nat d_model) (MHA.w_out self).
Proof.
  intros Hd Hn Hm. unfold MHA.__init__, py_mod.
  destruct (Z.eqb_spec num_heads 0); [contradiction|]. cbn [bind].
  rewrite Hm. cbn [Z.eqb negb].
  rewrite linear_init_ok by lia. cbn [bind].
  unfold MHA._reset_parameters.
  cbn [MHA.w_q MHA.w_k MHA.w_v MHA.w_out MHA.num_heads MHA.d_head].
  rewrite !reset_linear_ok by (reflexivity || lia). cbn [bind].
  eexists. split; [reflexivity|]. cbn. repeat split.
Qed.

Lemma attention_init_wf (rnd : MHA.random) (num_heads d_model : Z) :
  (0 < d_model)%Z -> (0 < num_heads)%Z -> (d_model mod num_heads = 0)%Z ->
  exists self, MHA.__init__ rnd num_heads d_model = Ok self
    /\ attention_wf float32 (Z.to_nat d_model) self.
Proof.
  intros Hd Hn Hm.
  destruct (attention_init_ok rnd num_heads d_model Hd ltac:(lia) Hm)
    as (self & Hi & Hnh & Hdh & Hq & Hk & Hv & Ho).
  exists self. split; [exact Hi|].
  assert (Hquot : Z.quot d_model num_heads = (d_model / num_heads)%Z)
    by (apply Z.quot_div_nonneg; lia).
  assert (Hmul : d_model = (num_heads * (d_model / num_heads))%Z)
    by (rewrite (Z.div_mod d_model num_heads) at 1 by lia; lia).
  constructor; try assumption.
  - discriminate.
  - lia.
  - rewrite Hdh, Hquot. apply Z.div_pos; lia.
  - rewrite Hnh, Hdh, Hquot, Z2Nat.id by lia. exact Hmul.
Qed.

(** C6. For a width [d_model > 0], constructing the attention module raises
    exactly when [d_model % num_heads != 0] (a zero [num_heads] makes the
    remainder itself raise); the exception is raised by the constructor, so no
    module exists on which a forward call could be made. *)
Theorem attention_init_raises_iff (rnd : MHA.random) (num_heads d_model : Z) :
  (0 < d_model)%Z ->
  (raises (MHA.__init__ rnd num_heads d_model) <-> (d_model mod num_heads <> 0)%Z).
Proof.
  intros Hd. split.
  - intros (e & He) Hm.
    assert (Hn : num_heads <> 0%Z).
    { intros ->. rewrite Z.mod_0_r in Hm. lia. }
    destruct (attention_init_ok rnd num_heads d_model Hd Hn Hm) as (self & Hi & _).
    congruence.
  - intros Hm. unfold raises, MHA.__init__, py_mod.
    destruct (Z.eqb_spec num_heads 0).
    + exists ZeroDivisionError. reflexivity.
    + cbn [bind]. destruct (Z.eqb_spec (d_model mod num_heads) 0); [contradiction|].
      exists AssertionError. reflexivity.
Qed.

Lemma attention_init_raises_iff_witness :
  raises (MHA.__init__ zero_attention_random 3 10)
  /\ ~ raises (MHA.__init__ zero_attention_random 2 8).
Proof.
  split.
  - apply (attention_init_raises_iff zero_attention_random 3 10); [lia | discriminate].
  - intros H. apply (attention_init_raises_iff zero_attention_random 2 8) in H; [|lia].
    apply H. reflexivity.
Defined.

Lemma dropout_init_ok (p : R) :
  (0 <= p <= 1)%R -> Dropout.__init__ p = Ok (Dropout.mk p).
Proof.
  intros Hp. unfold Dropout.__init__.
  destruct (Rlt_dec p 0); [lra|]. destruct (Rlt_dec 1 p); [lra|]. reflexivity.
Qed.

Lemma layernorm_init_ok (d_model : Z) :
  (0 <= d_model)%Z ->
  LayerNorm.__init__ d_model =
  Ok (LayerNorm.mk (Z.to_nat d_model) 1e-5%R
        (mkTensor [Z.to_nat d_model] float32 (fun _ => 1%R))
        (mkTensor [Z.to_nat d_model] float32 (fun _ => 0%R))).
Proof.
  intros H. unfold LayerNorm.__init__.
  destruct (Z.ltb_spec d_model 0); [lia | reflexivity].
Qed.

Lemma block_init_ok (rnd : EncoderBlock.random) (d_model num_heads d_ff : Z) (p : R) :
  (0 < d_model)%Z -> (0 < num_heads)%Z -> (d_model mod num_heads = 0)%Z ->
  (0 <= d_ff)%Z -> (0 <= p <= 1)%R ->
  exists blk l0 d1 l3,
    EncoderBlock.__init__ rnd d_model num_heads d_ff p = Ok blk
    /\ block_wf float32 (Z.to_nat d_model) (Z.to_nat d_ff) l0 d1 l3 blk.
Proof.
  intros Hd Hn Hm Hf Hp. unfold EncoderBlock.__init__.
  destruct (attention_init_wf (EncoderBlock.attention_random rnd) num_heads d_model
              Hd Hn Hm) as (att & Hi & Hwf).
  rewrite Hi. cbn [bind].
  rewrite !layernorm_init_ok by lia. cbn [bind].
  rewrite !dropout_init_ok by assumption. cbn [bind].
  rewrite !linear_init_ok by lia. cbn [bind].
  do 4 eexists. split; [reflexivity|].
  constructor; cbn; try assumption; try reflexivity; repeat split.
Qed.

Lemma init_blocks_length (rnd : nat -> EncoderBlock.random) (count first : nat)
    (num_heads d_model : Z) (p : R) (es : list EncoderBlock.t) :
  Encoder.init_blocks rnd first count num_heads d_model p = Ok es ->
  length es = count.
Proof.
  revert first es. induction count as [|n IH]; intros first es H; cbn [Encoder.init_blocks] in H.
  - injection H as <-. reflexivity.
  - destruct (EncoderBlock.__init__ (rnd first) d_model num_heads (2 * d_model) p)
      as [e|]; cbn [bind] in H; [|discriminate].
    destruct (Encoder.init_blocks rnd (S first) n num_heads d_model p) as [rest|] eqn:Hr;
      cbn [bind] in H; [|discriminate].
    injection H as <-. cbn. f_equal. eapply IH. exact Hr.
Qed.

Lemma init_blocks_ok (rnd : nat -> EncoderBlock.random) (count first : nat)
    (num_heads d_model : Z) (p : R) :
  (0 < d_model)%Z -> (0 < num_heads)%Z -> (d_model mod num_heads = 0)%Z ->
  (0 <= p <= 1)%R ->
  exists es, Encoder.init_blocks rnd first count num_heads d_model p = Ok es.
Proof.
  intros Hd Hn Hm Hp. revert first.
  induction count as [|n IH]; intros first; cbn [Encoder.init_blocks].
  - eexists; reflexivity.
  - destruct (block_init_ok (rnd first) d_model num_heads (2 * d_model) p
                Hd Hn Hm ltac:(lia) Hp) as (blk & _ & _ & _ & Hb & _).
    rewrite Hb. cbn [bind]. destruct (IH (S first)) as (es & Hes).
    rewrite Hes. cbn [bind]. eexists; reflexivity.
Qed.

(** ** The encoder without a causal mask *)

Lemma encoder_forward_without_buffer (enc : Encoder.t) (training : bool)
    (nz : nat -> EncoderBlock.noise) (x : Tensor) (mask : option Tensor) :
  Encoder.causal_mask_tensor enc = None -> Encoder.encoders enc <> [] ->
  Encoder.forward enc training nz x mask = Raise AttributeError.
Proof.
  intros Hnone Hne. unfold Encoder.forward, Encoder.forward_with.
  destruct (Encoder.encoders enc) as [|e rest]; [contradiction|].
  cbn [Encoder.loop_with]. unfold Encoder.get_causal_mask_tensor.
  rewrite Hnone. reflexivity.
Qed.

Lemma encoder_init_noncausal (rnd : nat -> EncoderBlock.random)
    (num_layers num_heads d_model : Z) (p : R) (seq_len : Z) (enc : Encoder.t) :
  Encoder.__init__ rnd num_layers num_heads d_model p seq_len false = Ok enc ->
  Encoder.causal_mask_tensor enc = None
  /\ length (Encoder.encoders enc) = Z.to_nat num_layers.
Proof.
  unfold Encoder.__init__. intros H.
  destruct (Encoder.init_blocks rnd 0 (Z.to_nat num_layers) num_heads d_model p)
    as [es|] eqn:Hes; cbn [bind] in H; [|discriminate].
  injection H as <-. cbn.
  split; [reflexivity|]. eapply init_blocks_length. exact Hes.
Qed.

(** C2 (the code diverges). An encoder of one layer built with
    [causal_mask=False] is constructed without the buffer
    [causal_mask_tensor]; its forward pass reads that attribute and raises
    [AttributeError] on every input, in both modes, with or without a padding
    mask. *)
Theorem noncausal_encoder_forward_raises :
  exists enc,
    Encoder.__init__ (fun _ => zero_random) 1 1 1 0 1 false = Ok enc
    /\ forall training nz x mask,
         Encoder.forward enc training nz x mask = Raise AttributeError.
Proof.
  destruct (init_blocks_ok (fun _ => zero_random) 1 0 1 1 0)
    as (es & Hes); try lia; try lra; [reflexivity|].
  exists (Encoder.mk es false 1 None).
  split.
  - unfold Encoder.__init__. change (Z.to_nat 1) with 1%nat. rewrite Hes. reflexivity.
  - intros training nz x mask. apply encoder_forward_without_buffer; [reflexivity|].
    cbn [Encoder.encoders]. apply init_blocks_length in Hes.
    destruct es; [discriminate | discriminate].
Qed.

(** ** EncoderBlock *)

Lemma dropout_shape (d : Dropout.t) (training : bool) (keep : Noise) (x : Tensor) :
  shape (Dropout.forward d training keep x) = shape x
  /\ dtype (Dropout.forward d training keep x) = dtype x.
Proof. unfold Dropout.forward. destruct training; split; reflexivity. Qed.

Lemma tensor_add_same3 (dt : torch_dtype) (B S D : nat) (a b : Tensor) :
  shape a = [B; S; D] -> shape b = [B; S; D] -> dtype a = dt -> dtype b = dt ->
  exists y, tensor_add a b = Ok y /\ shape y = [B; S; D] /\ dtype y = dt.
Proof.
  intros Ha Hb Hda Hdb. unfold tensor_add, map2_tensor.
  rewrite Ha, Hb, Hda, Hdb, broadcast_same3, promote_idem.
  eexists. split; [reflexivity|]. split; reflexivity.
Qed.

Lemma layernorm_forward3 (dt : torch_dtype) (B S D : nat) (ln : LayerNorm.t) (x : Tensor) :
  layernorm_wf dt D ln -> shape x = [B; S; D] -> dtype x = dt ->
  exists y, LayerNorm.forward ln x = Ok y /\ shape y = [B; S; D] /\ dtype y = dt.
Proof.
  intros (Hn & Hd) Hs Hx. unfold LayerNorm.forward.
  rewrite Hs, Hx, Hd, Hn. cbn [rev app].
  rewrite dtype_eqb_refl, Nat.eqb_refl. cbn [negb].
  eexists. split; [reflexivity|]. split; reflexivity.
Qed.

Lemma block_forward_eq_spec (blk : EncoderBlock.t) (l0 : Linear.t) (d1 : Dropout.t)
    (l3 : Linear.t) (training : bool) (nz : EncoderBlock.noise) (x : Tensor)
    (causal_mask padding_mask : option Tensor) :
  EncoderBlock.pff blk = [LinearLayer l0; DropoutLayer d1; ReLULayer; LinearLayer l3] ->
  EncoderBlock.forward blk training nz x causal_mask padding_mask
  = encoder_block_spec blk l0 d1 l3 training nz x causal_mask padding_mask.
Proof.
  intros Hpff.
  unfold EncoderBlock.forward, EncoderBlock.forward_with, encoder_block_spec.
  rewrite Hpff.
  destruct (MHA.forward (EncoderBlock.multi_head_attention blk) x None padding_mask
              causal_mask) as [[attended weights]|e]; [|reflexivity].
  cbn [bind fmap fst].
  destruct (tensor_add x _) as [s|e]; [|reflexivity]. cbn [bind].
  destruct (LayerNorm.forward (EncoderBlock.norm1 blk) s) as [x'|e]; [|reflexivity].
  cbn [bind Sequential.forward hd tl].
  destruct (Linear.forward l0 x') as [h|e]; [|reflexivity]. cbn [bind].
  destruct (Linear.forward l3 _) as [f|e]; [|reflexivity]. cbn [bind].
  destruct (tensor_add x' _) as [s'|e]; [|reflexivity]. cbn [bind].
  destruct (LayerNorm.forward (EncoderBlock.norm2 blk) s'); reflexivity.
Qed.

Lemma block_forward_ok (dt : torch_dtype) (D F B S : nat) (l0 : Linear.t)
    (d1 : Dropout.t) (l3 : Linear.t) (blk : EncoderBlock.t) (training : bool)
    (nz : EncoderBlock.noise) (x : Tensor) (causal_mask padding_mask : option Tensor) :
  block_wf dt D F l0 d1 l3 blk ->
  attention_input dt B S S D x None padding_mask causal_mask ->
  exists out, EncoderBlock.forward blk training nz x causal_mask padding_mask = Ok out
    /\ shape out = [B; S; D] /\ dtype out = dt.
Proof.
  intros [Hatt Hn1 Hn2 Hpff Hl0 Hl3] Hin.
  rewrite (block_forward_eq_spec blk l0 d1 l3 training nz x causal_mask padding_mask Hpff).
  unfold encoder_block_spec.
  destruct (attention_forward_stages dt B S S D _ x None padding_mask causal_mask Hatt Hin)
    as (_ & _ & _ & masked & a & _ & _ & _ & _ & _ & _ & _ & Hf & Has & Had).
  rewrite Hf. cbn [fmap fst bind].
  destruct Hin as [Hxs Hxd _ _ _ _].
  destruct (dropout_shape (EncoderBlock.dropout1 blk) training (EncoderBlock.keep1 nz) a)
    as (Hds & Hdd).
  destruct (tensor_add_same3 dt B S D x _ Hxs (eq_trans Hds Has) Hxd (eq_trans Hdd Had))
    as (s & Hs & Hss & Hsd).
  rewrite Hs. cbn [bind].
  destruct (layernorm_forward3 dt B S D _ s Hn1 Hss Hsd) as (x' & Hx' & Hx's & Hx'd).
  rewrite Hx'. cbn [bind].
  rewrite (linear_forward3 dt D F B S l0 x' Hl0 Hx's Hx'd). cbn [bind].
  erewrite (linear_forward3 dt F D B S l3 _ Hl3).
  2:{ unfold relu, map_tensor. cbn [shape].
      rewrite (proj1 (dropout_shape d1 training _ _)). reflexivity. }
  2:{ unfold relu, map_tensor. cbn [dtype].
      rewrite (proj2 (dropout_shape d1 training _ _)). reflexivity. }
  cbn [bind].
  match goal with
  | |- context [tensor_add x' (Dropout.forward ?d ?t ?k ?f)] =>
      destruct (dropout_shape d t k f) as (Hfs & Hfd);
      destruct (tensor_add_same3 dt B S D x' (Dropout.forward d t k f) Hx's Hfs Hx'd Hfd)
        as (s' & Hs' & Hs's & Hs'd)
  end.
  rewrite Hs'. cbn [bind].
  destruct (layernorm_forward3 dt B S D _ s' Hn2 Hs's Hs'd) as (out & Ho & Hos & Hod).
  exists out. split; [exact Ho|]. split; assumption.
Qed.

(** C7. The forward pass of a block is
    [x' = LayerNorm(x + Dropout(SelfAttention(x, causal_mask, padding_mask)))]
    followed by [x'' = LayerNorm(x' + Dropout(Linear2(ReLU(Dropout(Linear1(x'))))))],
    the ReLU after the inner dropout and before the second linear layer; on
    an input of shape [batch, seq_len, d_model] it returns a tensor of the
    shape of the input. *)
Theorem encoder_block_forward_formula (dt : torch_dtype) (D F B S : nat)
    (Linear1 : Linear.t) (InnerDropout : Dropout.t) (Linear2 : Linear.t)
    (blk : EncoderBlock.t) (training : bool) (nz : EncoderBlock.noise) (x : Tensor)
    (causal_mask padding_mask : option Tensor) :
  block_wf dt D F Linear1 InnerDropout Linear2 blk ->
  attention_input dt B S S D x None padding_mask causal_mask ->
  EncoderBlock.forward blk training nz x causal_mask padding_mask
  = encoder_block_spec blk Linear1 InnerDropout Linear2 training nz x
      causal_mask padding_mask
  /\ exists out,
       EncoderBlock.forward blk training nz x causal_mask padding_mask = Ok out
       /\ shape out = shape x.
Proof.
  intros Hwf Hin. split.
  - apply block_forward_eq_spec. exact (block_pff _ _ _ _ _ _ _ Hwf).
  - destruct (block_forward_ok dt D F B S _ _ _ blk training nz x causal_mask
                padding_mask Hwf Hin) as (out & Ho & Hs & _).
    exists out. split; [exact Ho|]. rewrite Hs. symmetry.
    exact (query_shape _ _ _ _ _ _ _ _ _ Hin).
Qed.

(** ** Embedding *)

(** C8. For token ids of shape [batch, seq_len] within the vocabulary, with
    [seq_len] at most the length of the positional table, the forward pass
    returns, at batch entry [b], position [s] and column [d], the row of the
    embedding table selected by the id at [(b, s)] plus row [s] of the stored
    positional table: the first [seq_len] rows of the table, the same for
    every batch entry. *)
Theorem embedding_forward_lookup_plus_positions (L D B S : nat)
    (self : Embedding.t) (x : IdTensor) :
  embedding_wf L D self -> ishape x = [B; S] -> (S <= L)%nat ->
  nn_Embedding.in_range (Embedding.embeddings self) x = true ->
  exists p out,
    PositionalEncoding.forward (Embedding.positional_embeddings self) (ishape x) = Ok p
    /\ shape p = [1; S; D]%nat
    /\ data p = data (PositionalEncoding.pe (Embedding.positional_embeddings self))
    /\ Embedding.forward self x = Ok out
    /\ shape out = [B; S; D]
    /\ forall b s d, (b < B)%nat -> (s < S)%nat -> (d < D)%nat ->
         data out [b; s; d] =
         (data (nn_Embedding.weight (Embedding.embeddings self))
            [Z.to_nat (idata x [b; s]); d]
          + data (PositionalEncoding.pe (Embedding.positional_embeddings self))
              [0; s; d]%nat)%R.
Proof.
  intros (Hdim & Hpe) Hx HS Hin.
  unfold Embedding.forward, nn_Embedding.forward, PositionalEncoding.forward.
  rewrite Hin, Hx, Hpe, Hdim. cbn [bind app].
  rewrite (Nat.min_l S L HS).
  unfold tensor_add, map2_tensor. cbn [shape]. rewrite broadcast_batch1.
  do 2 eexists. split; [reflexivity|]. split; [reflexivity|]. split; [reflexivity|].
  split; [reflexivity|]. split; [reflexivity|].
  intros b s d Hb Hs Hd. cbn [data].
  rewrite (bidx3 B S D b s d Hb Hs Hd), (bidx_batch1 S D b s d Hs Hd).
  reflexivity.
Qed.

(** ** Encoder: the attention weights are dropped *)

Lemma block_ignores_weights (tamper : Tensor -> Tensor) (blk : EncoderBlock.t)
    (training : bool) (nz : EncoderBlock.noise) (x : Tensor)
    (causal_mask mask : option Tensor) :
  EncoderBlock.forward_with (tampered_attention tamper) blk training nz x causal_mask mask
  = EncoderBlock.forward blk training nz x causal_mask mask.
Proof.
  unfold EncoderBlock.forward, EncoderBlock.forward_with, tampered_attention.
  destruct (MHA.forward (EncoderBlock.multi_head_attention blk) x None mask causal_mask)
    as [[attended weights]|e]; reflexivity.
Qed.

(** C10. The forward pass of the encoder returns one tensor, the hidden
    state after the last block, and that tensor does not depend on the
    attention weights the blocks compute: whatever the attention modules
    return as weights in place of theirs, the result of the encoder is the
    same (also when it raises). *)
Theorem encoder_forward_ignores_attention_weights (tamper : Tensor -> Tensor)
    (enc : Encoder.t) (training : bool) (nz : nat -> EncoderBlock.noise)
    (x : Tensor) (mask : option Tensor) :
  Encoder.forward_with (tampered_attention tamper) enc training nz x mask
  = Encoder.forward enc training nz x mask.
Proof.
  unfold Encoder.forward, Encoder.forward_with.
  generalize (Encoder.encoders enc) as es. intros es. revert nz x.
  induction es as [|e rest IH]; intros nz x; cbn [Encoder.loop_with]; [reflexivity|].
  destruct (Encoder.get_causal_mask_tensor enc) as [c|err]; [|reflexivity].
  cbn [bind]. rewrite block_ignores_weights.
  destruct (EncoderBlock.forward_with MHA.forward e training (nz 0%nat) x (Some c) mask)
    as [y|err] eqn:Hy.
  - unfold EncoderBlock.forward. rewrite Hy. cbn [bind]. apply IH.
  - unfold EncoderBlock.forward. rewrite Hy. reflexivity.
Qed.

(** ** The properties at concrete modules and inputs *)





Lemma attention_logits_scaled_and_masked_witness :
  exists Q K logits masked out,
    heads steep_attention (MHA.w_q steep_attention) two_tokens = Ok Q
    /\ heads steep_attention (MHA.w_k steep_attention) (value_of two_tokens None) = Ok K
    /\ MHA._apply_mask logits (Some example_padding) (Some example_causal) = Ok masked
    /\ MHA.forward steep_attention two_tokens None (Some example_padding)
         (Some example_causal) = Ok (out, softmax_last masked)
    /\ (MHA.large_neg_value float32 = (-9e15)%R \/ MHA.large_neg_value float32 = (-1e4)%R)
    /\ forall b h i j, (b < 1)%nat -> (h < Z.to_nat (MHA.num_heads steep_attention))%nat ->
         (i < 2)%nat -> (j < 2)%nat ->
         data logits [b; h; i; j] =
           (Rsum (Z.to_nat (MHA.d_head steep_attention))
              (fun e => data Q [b; h; i; e] * data K [b; h; j; e])
            / sqrt (IZR (MHA.d_head steep_attention)))%R
         /\ (suppressed (Some example_padding) (Some example_causal) b i j ->
             data masked [b; h; i; j] = MHA.large_neg_value float32)
         /\ (~ suppressed (Some example_padding) (Some example_causal) b i j ->
             data masked [b; h; i; j] = data logits [b; h; i; j]).
Proof.
  apply (attention_logits_scaled_and_masked float32 1 2 2 1 steep_attention two_tokens
           None (Some example_padding) (Some example_causal)).
  - constructor; cbn; try lia; try discriminate; repeat split.
  - constructor; reflexivity.
Defined.



Lemma encoder_block_forward_formula_witness :
  EncoderBlock.forward example_block false example_noise two_tokens
    (Some example_causal) (Some example_padding)
  = encoder_block_spec example_block (example_linear 1 2 1) (Dropout.mk 0)
      (example_linear 2 1 1) false example_noise two_tokens
      (Some example_causal) (Some example_padding)
  /\ exists out,
       EncoderBlock.forward example_block false example_noise two_tokens
         (Some example_causal) (Some example_padding) = Ok out
       /\ shape out = shape two_tokens.
Proof.
  apply (encoder_block_forward_formula float32 1 2 1 2).
  - constructor; try reflexivity; try (repeat split; fail).
    constructor; cbn; try lia; try discriminate; repeat split.
  - constructor; reflexivity.
Defined.

Lemma embedding_forward_lookup_plus_positions_witness :
  exists p out,
    PositionalEncoding.forward example_positional (ishape example_ids) = Ok p
    /\ shape p = [1; 2; 2]%nat
    /\ data p = data (PositionalEncoding.pe example_positional)
    /\ Embedding.forward example_embedding example_ids = Ok out
    /\ shape out = [1; 2; 2]%nat
    /\ forall b s d, (b < 1)%nat -> (s < 2)%nat -> (d < 2)%nat ->
         data out [b; s; d] =
         (data (nn_Embedding.weight (Embedding.embeddings example_embedding))
            [Z.to_nat (idata example_ids [b; s]); d]
          + data (PositionalEncoding.pe example_positional) [0; s; d]%nat)%R.
Proof.
  apply (embedding_forward_lookup_plus_positions 4 2 1 2 example_embedding example_ids).
  - split; reflexivity.
  - reflexivity.
  - lia.
  - reflexivity.
Defined.

(** ** What the constructors establish *)

Lemma embedding_init_wf (sample : list nat -> R) (d_model vocab_size seq_length : Z)
    (enable_padding : bool) (self : Embedding.t) :
  Embedding.__init__ sample d_model vocab_size seq_length enable_padding = Ok self ->
  embedding_wf (Z.to_nat seq_length) (Z.to_nat d_model) self.
Proof.
  unfold Embedding.__init__. intros H.
  destruct (if enable_padding
            then nn_Embedding.__init__ sample vocab_size d_model (Some 0%Z)
            else nn_Embedding.__init__ sample vocab_size d_model None) as [e|] eqn:He;
    cbn [bind] in H; [|discriminate].
  destruct (PositionalEncoding.__init__ seq_length d_model) as [p|] eqn:Hp;
    cbn [bind] in H; [|discriminate].
  injection H as <-. unfold embedding_wf. cbn [Embedding.embeddings Embedding.positional_embeddings].
  split; [|apply (positional_init_inv _ _ _ Hp)].
  unfold nn_Embedding.__init__ in He.
  destruct ((vocab_size <? 0)%Z || (d_model <? 0)%Z); [destruct enable_padding; discriminate|].
  destruct enable_padding.
  - cbn [Z.ltb Z.compare andb] in He.
    destruct (0 <? vocab_size)%Z; [|discriminate].
    injection He as <-. reflexivity.
  - injection He as <-. reflexivity.
Qed.

(** With [enable_padding=True] the table is built with [padding_idx=0] and
    its row 0 is zero when the constructor returns. *)
Lemma embedding_init_padding_row (sample : list nat -> R)
    (d_model vocab_size seq_length : Z) (self : Embedding.t) :
  Embedding.__init__ sample d_model vocab_size seq_length true = Ok self ->
  nn_Embedding.padding_idx (Embedding.embeddings self) = Some 0%Z
  /\ forall d, data (nn_Embedding.weight (Embedding.embeddings self)) [0; d]%nat = 0%R.
Proof.
  unfold Embedding.__init__. intros H.
  destruct (nn_Embedding.__init__ sample vocab_size d_model (Some 0%Z)) as [e|] eqn:He;
    cbn [bind] in H; [|discriminate].
  destruct (PositionalEncoding.__init__ seq_length d_model) as [p|] eqn:Hp;
    cbn [bind] in H; [|discriminate].
  injection H as <-. cbn [Embedding.embeddings].
  unfold nn_Embedding.__init__ in He.
  destruct ((vocab_size <? 0)%Z || (d_model <? 0)%Z); [discriminate|].
  cbn [Z.ltb Z.compare andb] in He.
  destruct (0 <? vocab_size)%Z; [|discriminate].
  injection He as <-. split; reflexivity.
Qed.

(** With the buffer present the loop over well-formed blocks completes and
    keeps the shape of the hidden state. *)
Lemma encoder_loop_ok (dt : torch_dtype) (D B S : nat) (enc : Encoder.t) (cm : Tensor)
    (mask : option Tensor) (training : bool) (es : list EncoderBlock.t) :
  Encoder.causal_mask_tensor enc = Some cm -> shape cm = [S; S] ->
  match mask with Some pm => shape pm = [B; S] | None => True end ->
  Forall (fun blk => exists F l0 d1 l3, block_wf dt D F l0 d1 l3 blk) es ->
  forall (nz : nat -> EncoderBlock.noise) (x : Tensor),
    shape x = [B; S; D] -> dtype x = dt ->
    exists out, Encoder.loop_with MHA.forward enc es training nz x mask = Ok out
      /\ shape out = [B; S; D] /\ dtype out = dt.
Proof.
  intros Hattr Hcm Hmask Hall.
  induction Hall as [|blk rest (F & l0 & d1 & l3 & Hwf) _ IH]; intros nz x Hxs Hxd;
    cbn [Encoder.loop_with].
  - exists x. split; [reflexivity|]. split; assumption.
  - unfold Encoder.get_causal_mask_tensor. rewrite Hattr. cbn [bind].
    assert (Hin : attention_input dt B S S D x None mask (Some cm))
      by (constructor; assumption).
    destruct (block_forward_ok dt D F B S l0 d1 l3 blk training (nz 0%nat) x (Some cm)
                mask Hwf Hin) as (y & Hy & Hys & Hyd).
    unfold EncoderBlock.forward in Hy. rewrite Hy. cbn [bind].
    apply IH; assumption.
Qed.

(** * Further properties of the code *)

(** ** The attention pass in closed form *)

Lemma Rsum_ext (n : nat) (f g : nat -> R) :
  (forall k, (k < n)%nat -> f k = g k) -> Rsum n f = Rsum n g.
Proof.
  induction n as [|n IH]; intros H; simpl; [reflexivity|].
  rewrite IH by (intros; apply H; lia). rewrite H by lia. reflexivity.
Qed.

Lemma zero_at_dec (mask : option Tensor) (ix : list nat) :
  {zero_at mask ix} + {~ zero_at mask ix}.
Proof.
  destruct mask as [m|].
  - destruct (Req_dec_T (data m ix) 0) as [H|H].
    + left. exists m. split; [reflexivity | exact H].
    + right. intros (m' & Hm & H0). injection Hm as <-. contradiction.
  - right. intros (m' & Hm & _). discriminate.
Qed.

Lemma suppressed_dec (padding_mask causal_mask : option Tensor) (b i j : nat) :
  {suppressed padding_mask causal_mask b i j}
  + {~ suppressed padding_mask causal_mask b i j}.
Proof.
  unfold suppressed.
  destruct (zero_at_dec padding_mask [b; j]); [left; now left|].
  destruct (zero_at_dec causal_mask [i; j]); [left; now right|].
  right. intros [H|H]; contradiction.
Qed.

Lemma heads_explicit (dt : torch_dtype) (D B S : nat) (self : MHA.t)
    (l : Linear.t) (x : Tensor) :
  (0 <= MHA.num_heads self)%Z -> (0 <= MHA.d_head self)%Z ->
  Z.of_nat D = (MHA.num_heads self * MHA.d_head self)%Z ->
  linear_wf dt D D l -> shape x = [B; S; D] -> dtype x = dt ->
  exists Q, heads self l x = Ok Q
    /\ shape Q = [B; Z.to_nat (MHA.num_heads self); S; Z.to_nat (MHA.d_head self)]
    /\ dtype Q = dt
    /\ forall b h s e,
         data Q [b; h; s; e] = projected l x b s (h * Z.to_nat (MHA.d_head self) + e).
Proof.
  intros Hn Hd HD Hl Hs Hx. unfold heads.
  rewrite (linear_forward3 dt D D B S l x Hl Hs Hx). cbn [bind].
  rewrite (split_heads_ok _ _ B S D) by (assumption || reflexivity).
  eexists. split; [reflexivity|]. split; [reflexivity|]. split; [reflexivity|].
  intros b h s e. unfold projected. destruct Hl as (Hi & _). rewrite Hi. reflexivity.
Qed.

Lemma attention_forward_prefix (dt : torch_dtype) (B Sq Sk D : nat) (self : MHA.t)
    (query : Tensor) (value : option Tensor) :
  attention_wf dt D self ->
  shape query = [B; Sq; D] -> dtype query = dt ->
  shape (value_of query value) = [B; Sk; D] -> dtype (value_of query value) = dt ->
  exists Q K V logits,
    heads self (MHA.w_q self) query = Ok Q
    /\ heads self (MHA.w_k self) (value_of query value) = Ok K
    /\ heads self (MHA.w_v self) (value_of query value) = Ok V
    /\ shape V = [B; Z.to_nat (MHA.num_heads self); Sk; Z.to_nat (MHA.d_head self)]
    /\ dtype V = dt
    /\ shape logits = [B; Z.to_nat (MHA.num_heads self); Sq; Sk]
    /\ dtype logits = dt
    /\ (forall b h i j, (b < B)%nat -> (h < Z.to_nat (MHA.num_heads self))%nat ->
          data logits [b; h; i; j] = scaled_dot self Q K b h i j)
    /\ forall padding_mask causal_mask,
         MHA.forward self query value padding_mask causal_mask
         = attend self logits V padding_mask causal_mask.
Proof.
  intros [Hfl Hn Hd HD Hq Hk Hv Ho] Hqs Hqd Hvs Hvd.
  set (H := Z.to_nat (MHA.num_heads self)). set (E := Z.to_nat (MHA.d_head self)).
  unfold heads, MHA.forward.
  change (match value with None => query | Some v => v end) with (value_of query value).
  rewrite (linear_forward3 dt D D B Sq _ query Hq Hqs Hqd).
  rewrite (linear_forward3 dt D D B Sk _ _ Hk Hvs Hvd).
  rewrite (linear_forward3 dt D D B Sk _ _ Hv Hvs Hvd).
  cbn [bind].
  rewrite !(split_heads_ok _ _ B Sq D) by (assumption || reflexivity).
  rewrite !(split_heads_ok _ _ B Sk D) by (assumption || reflexivity).
  cbn [bind]. fold H E.
  unfold rearrange_transpose. cbn [shape bind dtype].
  erewrite (matmul4 dt B H Sq E Sk) by reflexivity. cbn [bind].
  do 4 eexists.
  split; [reflexivity|]. split; [reflexivity|]. split; [reflexivity|].
  split; [reflexivity|]. split; [reflexivity|].
  split; [|split; [|split; [|intros padding_mask causal_mask; unfold attend; reflexivity]]].
  - reflexivity.
  - cbn. now apply promote_float_id.
  - intros b h i j Hb Hh.
    unfold scaled_dot. cbn [div_scalar data nth last shape].
    rewrite (bidx2 B H b h Hb Hh). cbn [app].
    replace (INR E) with (IZR (MHA.d_head self))
      by (subst E; rewrite INR_IZR_INZ, Z2Nat.id by assumption; reflexivity).
    reflexivity.
Qed.

Lemma head_of_column (H E c : nat) : (c < H * E)%nat -> (c / E < H)%nat /\ (c mod E < E)%nat.
Proof.
  intros Hc. assert (HE : (E <> 0)%nat) by (intros ->; lia).
  split; [apply Nat.Div0.div_lt_upper_bound; lia | apply Nat.mod_upper_bound; exact HE].
Qed.

Lemma attention_forward_explicit (dt : torch_dtype) (B Sq Sk D : nat) (self : MHA.t)
    (query : Tensor) (value padding_mask causal_mask : option Tensor) :
  attention_wf dt D self ->
  attention_input dt B Sq Sk D query value padding_mask causal_mask ->
  exists Q K V masked out,
    heads self (MHA.w_q self) query = Ok Q
    /\ heads self (MHA.w_k self) (value_of query value) = Ok K
    /\ heads self (MHA.w_v self) (value_of query value) = Ok V
    /\ shape masked = [B; Z.to_nat (MHA.num_heads self); Sq; Sk]
    /\ (forall b h i j, (b < B)%nat -> (h < Z.to_nat (MHA.num_heads self))%nat ->
          (i < Sq)%nat -> (j < Sk)%nat ->
          (suppressed padding_mask causal_mask b i j ->
           data masked [b; h; i; j] = MHA.large_neg_value dt)
          /\ (~ suppressed padding_mask causal_mask b i j ->
              data masked [b; h; i; j] = scaled_dot self Q K b h i j))
    /\ MHA.forward self query value padding_mask causal_mask
       = Ok (out, softmax_last masked)
    /\ shape out = [B; Sq; D]
    /\ dtype out = dt
    /\ forall b s o, (b < B)%nat ->
         data out [b; s; o] =
         (Rsum D (fun c =>
            Rsum Sk (fun j =>
              data (softmax_last masked) [b; (c / Z.to_nat (MHA.d_head self))%nat; s; j]
              * data V [b; (c / Z.to_nat (MHA.d_head self))%nat; j;
                        (c mod Z.to_nat (MHA.d_head self))%nat])
            * data (Linear.weight (MHA.w_out self)) [o; c])
          + data (Linear.bias (MHA.w_out self)) [o])%R.
Proof.
  intros Hwf [Hqs Hqd Hvs Hvd Hp Hc].
  destruct (attention_forward_prefix dt B Sq Sk D self query value Hwf Hqs Hqd Hvs Hvd)
    as (Q & K & V & logits & HQ & HK & HV & HVs & HVd & Hls & Hld & Hlog & Hfwd).
  destruct Hwf as [Hfl Hn Hd HD Hq Hk Hv Ho].
  set (H := Z.to_nat (MHA.num_heads self)) in *.
  set (E := Z.to_nat (MHA.d_head self)) in *.
  assert (HE : (H * E)%nat = D) by (subst H E; nia).
  destruct (apply_mask_ok B H Sq Sk logits padding_mask causal_mask Hls Hp Hc)
    as (masked & Hm & Hms & Hmd & Hpt).
  rewrite Hfwd. unfold attend. rewrite Hm. cbn [bind].
  erewrite (matmul4 dt B H Sq Sk E);
    [|cbn [shape softmax_last]; exact Hms | exact HVs
     |cbn [dtype softmax_last]; congruence | exact HVd].
  cbn [bind].
  unfold rearrange_merge_heads. cbn [shape bind dtype].
  erewrite (linear_forward3 dt D D B Sq _ _ Ho); [|cbn [shape]; now rewrite HE | reflexivity].
  exists Q, K, V, masked. eexists.
  split; [exact HQ|]. split; [exact HK|]. split; [exact HV|]. split; [exact Hms|].
  split; [|split; [reflexivity|split; [reflexivity|split; [reflexivity|]]]].
  - intros b h i j Hb Hh Hi Hj. destruct (Hpt b h i j Hb Hh Hi Hj) as (Hs1 & Hs2).
    split; [rewrite <- Hld; exact Hs1|].
    intros Hns. rewrite (Hs2 Hns). now apply Hlog.
  - intros b s o Hb. cbn [data removelast last app].
    destruct Ho as (Hi & _). f_equal. apply Rsum_ext. intros c Hc'. f_equal.
    cbn [nth].
    destruct (head_of_column H E c ltac:(lia)) as (Hh & He).
    rewrite (bidx2 B H b (c / E) Hb Hh). cbn [app]. reflexivity.
Qed.

Lemma softmax_entry (B H Sq Sk : nat) (masked : Tensor) (b h i j : nat) :
  shape masked = [B; H; Sq; Sk] ->
  data (softmax_last masked) [b; h; i; j]
  = (exp (data masked [b; h; i; j])
     / Rsum Sk (fun k => exp (data masked [b; h; i; k])))%R.
Proof. intros Hs. cbn [softmax_last data]. rewrite Hs. reflexivity. Qed.


Lemma Rsum_const (n : nat) (c : R) : Rsum n (fun _ => c) = (INR n * c)%R.
Proof.
  induction n as [|n IH]; [simpl; lra|].
  cbn [Rsum]. rewrite IH, S_INR. lra.
Qed.


(** X6. A query position all of whose keys are suppressed attends uniformly: each
    of its [seq_len_k] weights is [1 / seq_len_k]. *)
Theorem fully_masked_row_is_uniform (dt : torch_dtype) (B Sq Sk D : nat)
    (self : MHA.t) (query : Tensor) (value padding_mask causal_mask : option Tensor)
    (b h i : nat) :
  attention_wf dt D self ->
  attention_input dt B Sq Sk D query value padding_mask causal_mask ->
  (b < B)%nat -> (h < Z.to_nat (MHA.num_heads self))%nat -> (i < Sq)%nat ->
  (forall j, (j < Sk)%nat -> suppressed padding_mask causal_mask b i j) ->
  exists out weights,
    MHA.forward self query value padding_mask causal_mask = Ok (out, weights)
    /\ forall j, (j < Sk)%nat -> data weights [b; h; i; j] = (1 / INR Sk)%R.
Proof.
  intros Hwf Hin Hb Hh Hi Hall.
  destruct (attention_forward_explicit dt B Sq Sk D self query value padding_mask
              causal_mask Hwf Hin)
    as (Q & K & V & masked & out & _ & _ & _ & Hms & Hpt & Hf & _).
  exists out, (softmax_last masked). split; [exact Hf|].
  intros j Hj.
  rewrite (softmax_entry _ _ _ _ masked b h i j Hms).
  rewrite (Rsum_ext Sk _ (fun _ => exp (MHA.large_neg_value dt))).
  2:{ intros k Hk. f_equal. apply (Hpt b h i k Hb Hh Hi Hk). now apply Hall. }
  rewrite (proj1 (Hpt b h i j Hb Hh Hi Hj) (Hall j Hj)), Rsum_const.
  pose proof (exp_pos (MHA.large_neg_value dt)) as He.
  assert (HS : (0 < INR Sk)%R) by (apply lt_0_INR; lia).
  field. split; lra.
Qed.


Lemma projected_ext (l : Linear.t) (x x' : Tensor) (b s o : nat) :
  (forall k, (k < Linear.in_features l)%nat -> data x [b; s; k] = data x' [b; s; k]) ->
  projected l x b s o = projected l x' b s o.
Proof.
  intros H. unfold projected. f_equal. apply Rsum_ext. intros k Hk. now rewrite H.
Qed.

(** Two calls of one module whose inputs agree on batch entry [b] and whose
    masks suppress the same logits of that entry return, at that entry, the
    same weights and the same output. *)
Lemma attention_congruence (dt : torch_dtype) (B Sq Sk D : nat) (self : MHA.t)
    (query query' : Tensor) (value value' : option Tensor)
    (padding_mask padding_mask' causal_mask causal_mask' : option Tensor) (b : nat) :
  attention_wf dt D self ->
  attention_input dt B Sq Sk D query value padding_mask causal_mask ->
  attention_input dt B Sq Sk D query' value' padding_mask' causal_mask' ->
  (b < B)%nat ->
  (forall s k, (s < Sq)%nat -> (k < D)%nat -> data query [b; s; k] = data query' [b; s; k]) ->
  (forall s k, (s < Sk)%nat -> (k < D)%nat ->
     data (value_of query value) [b; s; k] = data (value_of query' value') [b; s; k]) ->
  (forall i j, (i < Sq)%nat -> (j < Sk)%nat ->
     (suppressed padding_mask causal_mask b i j
      <-> suppressed padding_mask' causal_mask' b i j)) ->
  exists out weights out' weights',
    MHA.forward self query value padding_mask causal_mask = Ok (out, weights)
    /\ MHA.forward self query' value' padding_mask' causal_mask' = Ok (out', weights')
    /\ (forall h i j, (h < Z.to_nat (MHA.num_heads self))%nat -> (i < Sq)%nat ->
          (j < Sk)%nat -> data weights [b; h; i; j] = data weights' [b; h; i; j])
    /\ (forall s o, (s < Sq)%nat -> data out [b; s; o] = data out' [b; s; o]).
Proof.
  intros Hwf Hin Hin' Hb Hq Hv Hsup.
  destruct (attention_forward_explicit dt B Sq Sk D self query value padding_mask
              causal_mask Hwf Hin)
    as (Q & K & V & masked & out & HQ & HK & HV & Hms & Hpt & Hf & _ & _ & Hout).
  destruct (attention_forward_explicit dt B Sq Sk D self query' value' padding_mask'
              causal_mask' Hwf Hin')
    as (Q' & K' & V' & masked' & out' & HQ' & HK' & HV' & Hms' & Hpt' & Hf' & _ & _ & Hout').
  destruct Hwf as [Hfl Hn Hd HD Hlq Hlk Hlv Hlo].
  set (H := Z.to_nat (MHA.num_heads self)) in *.
  set (E := Z.to_nat (MHA.d_head self)) in *.
  assert (HE : (H * E)%nat = D) by (subst H E; nia).
  destruct (heads_explicit dt D B Sq self _ query Hn Hd HD Hlq
              (query_shape _ _ _ _ _ _ _ _ _ Hin) (query_dtype _ _ _ _ _ _ _ _ _ Hin))
    as (Q0 & HQ0 & _ & _ & HQd).
  destruct (heads_explicit dt D B Sq self _ query' Hn Hd HD Hlq
              (query_shape _ _ _ _ _ _ _ _ _ Hin') (query_dtype _ _ _ _ _ _ _ _ _ Hin'))
    as (Q0' & HQ0' & _ & _ & HQd').
  destruct (heads_explicit dt D B Sk self _ _ Hn Hd HD Hlk
              (value_shape _ _ _ _ _ _ _ _ _ Hin) (value_dtype _ _ _ _ _ _ _ _ _ Hin))
    as (K0 & HK0 & _ & _ & HKd).
  destruct (heads_explicit dt D B Sk self _ _ Hn Hd HD Hlk
              (value_shape _ _ _ _ _ _ _ _ _ Hin') (value_dtype _ _ _ _ _ _ _ _ _ Hin'))
    as (K0' & HK0' & _ & _ & HKd').
  destruct (heads_explicit dt D B Sk self _ _ Hn Hd HD Hlv
              (value_shape _ _ _ _ _ _ _ _ _ Hin) (value_dtype _ _ _ _ _ _ _ _ _ Hin))
    as (V0 & HV0 & _ & _ & HVd).
  destruct (heads_explicit dt D B Sk self _ _ Hn Hd HD Hlv
              (value_shape _ _ _ _ _ _ _ _ _ Hin') (value_dtype _ _ _ _ _ _ _ _ _ Hin'))
    as (V0' & HV0' & _ & _ & HVd').
  assert (Q0 = Q) by congruence. assert (Q0' = Q') by congruence.
  assert (K0 = K) by congruence. assert (K0' = K') by congruence.
  assert (V0 = V) by congruence. assert (V0' = V') by congruence.
  subst Q0 Q0' K0 K0' V0 V0'.
  assert (HeqQ : forall h i e, (i < Sq)%nat -> data Q [b; h; i; e] = data Q' [b; h; i; e]).
  { intros h i e Hi. rewrite HQd, HQd'. apply projected_ext.
    intros k Hk. apply Hq; [exact Hi|]. destruct Hlq as (<- & _). exact Hk. }
  assert (HeqK : forall h j e, (j < Sk)%nat -> data K [b; h; j; e] = data K' [b; h; j; e]).
  { intros h j e Hj. rewrite HKd, HKd'. apply projected_ext.
    intros k Hk. apply Hv; [exact Hj|]. destruct Hlk as (<- & _). exact Hk. }
  assert (HeqV : forall h j e, (j < Sk)%nat -> data V [b; h; j; e] = data V' [b; h; j; e]).
  { intros h j e Hj. rewrite HVd, HVd'. apply projected_ext.
    intros k Hk. apply Hv; [exact Hj|]. destruct Hlv as (<- & _). exact Hk. }
  assert (Heqm : forall h i j, (h < H)%nat -> (i < Sq)%nat -> (j < Sk)%nat ->
            data masked [b; h; i; j] = data masked' [b; h; i; j]).
  { intros h i j Hh Hi Hj.
    destruct (Hpt b h i j Hb Hh Hi Hj) as (Hs1 & Hs2).
    destruct (Hpt' b h i j Hb Hh Hi Hj) as (Hs1' & Hs2').
    destruct (suppressed_dec padding_mask causal_mask b i j) as [Hs|Hns].
    - rewrite (Hs1 Hs), (Hs1' (proj1 (Hsup i j Hi Hj) Hs)). reflexivity.
    - assert (Hns' : ~ suppressed padding_mask' causal_mask' b i j)
        by (intros Hs'; apply Hns; now apply (Hsup i j Hi Hj)).
      rewrite (Hs2 Hns), (Hs2' Hns'). unfold scaled_dot. f_equal.
      apply Rsum_ext. intros e _. now rewrite HeqQ, HeqK. }
  assert (Heqw : forall h i j, (h < H)%nat -> (i < Sq)%nat -> (j < Sk)%nat ->
            data (softmax_last masked) [b; h; i; j]
            = data (softmax_last masked') [b; h; i; j]).
  { intros h i j Hh Hi Hj.
    rewrite (softmax_entry _ _ _ _ masked b h i j Hms),
      (softmax_entry _ _ _ _ masked' b h i j Hms').
    rewrite (Heqm h i j Hh Hi Hj). f_equal.
    apply Rsum_ext. intros k Hk. now rewrite (Heqm h i k Hh Hi Hk). }
  exists out, (softmax_last masked), out', (softmax_last masked').
  split; [exact Hf|]. split; [exact Hf'|]. split; [exact Heqw|].
  intros s o Hs. rewrite (Hout b s o Hb), (Hout' b s o Hb). f_equal.
  apply Rsum_ext. intros c Hc. f_equal.
  destruct (head_of_column H E c ltac:(lia)) as (Hh & He).
  apply Rsum_ext. intros j Hj.
  rewrite (Heqw (c / E)%nat s j Hh Hs Hj), (HeqV (c / E)%nat j (c mod E)%nat Hj).
  reflexivity.
Qed.

(** X8. Attention never mixes batch entries: two input batches that agree on
    entry [b] give the same weights and the same output at entry [b], whatever
    the other entries hold. *)
Theorem attention_batch_entries_independent (dt : torch_dtype) (B Sq Sk D : nat)
    (self : MHA.t) (query query' : Tensor) (value value' : option Tensor)
    (padding_mask causal_mask : option Tensor) (b : nat) :
  attention_wf dt D self ->
  attention_input dt B Sq Sk D query value padding_mask causal_mask ->
  attention_input dt B Sq Sk D query' value' padding_mask causal_mask ->
  (b < B)%nat ->
  (forall s k, (s < Sq)%nat -> (k < D)%nat -> data query [b; s; k] = data query' [b; s; k]) ->
  (forall s k, (s < Sk)%nat -> (k < D)%nat ->
     data (value_of query value) [b; s; k] = data (value_of query' value') [b; s; k]) ->
  exists out weights out' weights',
    MHA.forward self query value padding_mask causal_mask = Ok (out, weights)
    /\ MHA.forward self query' value' padding_mask causal_mask = Ok (out', weights')
    /\ (forall h i j, (h < Z.to_nat (MHA.num_heads self))%nat -> (i < Sq)%nat ->
          (j < Sk)%nat -> data weights [b; h; i; j] = data weights' [b; h; i; j])
    /\ (forall s o, (s < Sq)%nat -> data out [b; s; o] = data out' [b; s; o]).
Proof.
  intros Hwf Hin Hin' Hb Hq Hv.
  apply (attention_congruence dt B Sq Sk D self query query' value value'
           padding_mask padding_mask causal_mask causal_mask b); try assumption.
  intros i j _ _. tauto.
Qed.

(** X9. The masks act only through their zero entries: two pairs of masks that
    are zero at the same places give the same weights and the same output; in
    particular a mask without zeros is the same as no mask. *)
Theorem attention_masks_act_through_zeros (dt : torch_dtype) (B Sq Sk D : nat)
    (self : MHA.t) (query : Tensor) (value : option Tensor)
    (padding_mask padding_mask' causal_mask causal_mask' : option Tensor) :
  attention_wf dt D self ->
  attention_input dt B Sq Sk D query value padding_mask causal_mask ->
  attention_input dt B Sq Sk D query value padding_mask' causal_mask' ->
  (forall b i j, (b < B)%nat -> (i < Sq)%nat -> (j < Sk)%nat ->
     (suppressed padding_mask causal_mask b i j
      <-> suppressed padding_mask' causal_mask' b i j)) ->
  exists out weights out' weights',
    MHA.forward self query value padding_mask causal_mask = Ok (out, weights)
    /\ MHA.forward self query value padding_mask' causal_mask' = Ok (out', weights')
    /\ (forall b h i j, (b < B)%nat -> (h < Z.to_nat (MHA.num_heads self))%nat ->
          (i < Sq)%nat -> (j < Sk)%nat ->
          data weights [b; h; i; j] = data weights' [b; h; i; j])
    /\ (forall b s o, (b < B)%nat -> (s < Sq)%nat ->
          data out [b; s; o] = data out' [b; s; o]).
Proof.
  intros Hwf Hin Hin' Hsup.
  destruct (attention_forward_explicit dt B Sq Sk D self query value padding_mask
              causal_mask Hwf Hin) as (_ & _ & _ & masked & out & _ & _ & _ & _ & _ & Hf & _).
  destruct (attention_forward_explicit dt B Sq Sk D self query value padding_mask'
              causal_mask' Hwf Hin')
    as (_ & _ & _ & masked' & out' & _ & _ & _ & _ & _ & Hf' & _).
  exists out, (softmax_last masked), out', (softmax_last masked').
  split; [exact Hf|]. split; [exact Hf'|]. split.
  - intros b h i j Hb Hh Hi Hj.
    destruct (attention_congruence dt B Sq Sk D self query query value value
                padding_mask padding_mask' causal_mask causal_mask' b Hwf Hin Hin' Hb
                ltac:(reflexivity) ltac:(reflexivity)
                (fun i j Hi Hj => Hsup b i j Hb Hi Hj))
      as (o1 & w1 & o2 & w2 & H1 & H2 & Hw & _).
    rewrite Hf in H1. rewrite Hf' in H2.
    injection H1 as <- <-. injection H2 as <- <-. now apply Hw.
  - intros b s o Hb Hs.
    destruct (attention_congruence dt B Sq Sk D self query query value value
                padding_mask padding_mask' causal_mask causal_mask' b Hwf Hin Hin' Hb
                ltac:(reflexivity) ltac:(reflexivity)
                (fun i j Hi Hj => Hsup b i j Hb Hi Hj))
      as (o1 & w1 & o2 & w2 & H1 & H2 & _ & Ho).
    rewrite Hf in H1. rewrite Hf' in H2.
    injection H1 as <- <-. injection H2 as <- <-. now apply Ho.
Qed.

(** ** The encoder stack *)

Lemma init_blocks_wf (rnd : nat -> EncoderBlock.random) (count first : nat)
    (num_heads d_model : Z) (p : R) (es : list EncoderBlock.t) :
  (0 < d_model)%Z -> (0 < num_heads)%Z -> (d_model mod num_heads = 0)%Z ->
  (0 <= p <= 1)%R ->
  Encoder.init_blocks rnd first count num_heads d_model p = Ok es ->
  length es = count
  /\ Forall (fun blk => exists F l0 d1 l3,
               block_wf float32 (Z.to_nat d_model) F l0 d1 l3 blk) es.
Proof.
  intros Hd Hn Hm Hp. revert first es.
  induction count as [|n IH]; intros first es H; cbn [Encoder.init_blocks] in H.
  - injection H as <-. split; [reflexivity | constructor].
  - destruct (block_init_ok (rnd first) d_model num_heads (2 * d_model) p
                Hd Hn Hm ltac:(lia) Hp) as (blk & l0 & d1 & l3 & Hb & Hwf).
    rewrite Hb in H. cbn [bind] in H.
    destruct (Encoder.init_blocks rnd (S first) n num_heads d_model p) as [rest|] eqn:Hr;
      cbn [bind] in H; [|discriminate].
    injection H as <-. destruct (IH _ _ Hr) as (Hlen & Hall).
    split; [cbn; now rewrite Hlen|].
    constructor; [|exact Hall]. exists (Z.to_nat (2 * d_model)), l0, d1, l3. exact Hwf.
Qed.

Lemma encoder_init_causal_ok (rnd : nat -> EncoderBlock.random)
    (num_layers num_heads d_model : Z) (p : R) (seq_len : Z) :
  (0 < d_model)%Z -> (0 < num_heads)%Z -> (d_model mod num_heads = 0)%Z ->
  (0 <= p <= 1)%R -> (0 <= seq_len)%Z ->
  exists enc cm,
    Encoder.__init__ rnd num_layers num_heads d_model p seq_len true = Ok enc
    /\ Encoder.causal_mask_tensor enc = Some cm
    /\ shape cm = [Z.to_nat seq_len; Z.to_nat seq_len]
    /\ (forall i j, data cm [i; j] = if (j <=? i)%nat then 1%R else 0%R)
    /\ length (Encoder.encoders enc) = Z.to_nat num_layers
    /\ Forall (fun blk => exists F l0 d1 l3,
                 block_wf float32 (Z.to_nat d_model) F l0 d1 l3 blk)
              (Encoder.encoders enc).
Proof.
  intros Hd Hn Hm Hp Hs.
  destruct (init_blocks_ok rnd (Z.to_nat num_layers) 0 num_heads d_model p Hd Hn Hm Hp)
    as (es & Hes).
  destruct (init_blocks_wf rnd _ _ _ _ _ es Hd Hn Hm Hp Hes) as (Hlen & Hall).
  pose proof (causal_buffer_ok seq_len Hs) as Hbuf.
  destruct (causal_buffer_inv seq_len _ Hbuf) as (Hshape & Hdata).
  unfold Encoder.__init__. rewrite Hes. cbn [bind]. rewrite Hbuf. cbn [bind].
  do 2 eexists. split; [reflexivity|]. cbn [Encoder.causal_mask_tensor Encoder.encoders].
  split; [reflexivity|]. split; [exact Hshape|]. split; [exact Hdata|].
  split; assumption.
Qed.

(** X10. A causal encoder built from valid parameters maps a hidden state of shape
    [batch, seq_len, d_model] to a hidden state of the same shape, through
    any number of layers. *)
Theorem causal_encoder_keeps_shape (rnd : nat -> EncoderBlock.random)
    (num_layers num_heads d_model : Z) (p : R) (seq_len : Z) (B : nat)
    (training : bool) (nz : nat -> EncoderBlock.noise) (x : Tensor)
    (mask : option Tensor) :
  (0 < d_model)%Z -> (0 < num_heads)%Z -> (d_model mod num_heads = 0)%Z ->
  (0 <= p <= 1)%R -> (0 <= seq_len)%Z ->
  shape x = [B; Z.to_nat seq_len; Z.to_nat d_model] -> dtype x = float32 ->
  match mask with Some pm => shape pm = [B; Z.to_nat seq_len] | None => True end ->
  exists enc out,
    Encoder.__init__ rnd num_layers num_heads d_model p seq_len true = Ok enc
    /\ Encoder.forward enc training nz x mask = Ok out
    /\ shape out = shape x.
Proof.
  intros Hd Hn Hm Hp Hs Hxs Hxd Hmask.
  destruct (encoder_init_causal_ok rnd num_layers num_heads d_model p seq_len
              Hd Hn Hm Hp Hs) as (enc & cm & Hinit & Hattr & Hcm & _ & _ & Hall).
  destruct (encoder_loop_ok float32 _ B _ enc cm mask training _ Hattr Hcm Hmask Hall
              nz x Hxs Hxd) as (out & Hout & Hos & _).
  exists enc, out. split; [exact Hinit|]. split; [exact Hout|]. congruence.
Qed.

Lemma broadcast_causal_mismatch (B H S L : nat) :
  S <> L -> S <> 1%nat -> L <> 1%nat ->
  broadcast_shapes [B; H; S; S] [L; L] = None.
Proof.
  intros H1 H2 H3. unfold broadcast_shapes. cbn [rev app broadcast_rev].
  destruct (Nat.eqb_spec S L); [contradiction|].
  destruct (Nat.eqb_spec S 1); [contradiction|].
  destruct (Nat.eqb_spec L 1); [contradiction|]. reflexivity.
Qed.

Lemma apply_mask_causal_mismatch (B H S L : nat) (logits cm : Tensor)
    (padding_mask : option Tensor) :
  shape logits = [B; H; S; S] -> shape cm = [L; L] ->
  match padding_mask with Some pm => shape pm = [B; S] | None => True end ->
  S <> L -> S <> 1%nat -> L <> 1%nat ->
  MHA._apply_mask logits padding_mask (Some cm) = Raise RuntimeError.
Proof.
  intros Hl Hc Hp H1 H2 H3. unfold MHA._apply_mask.
  destruct padding_mask as [pm|].
  - unfold rearrange_padding. rewrite Hp. cbn [bind].
    unfold masked_fill_eq0 at 1. cbn [shape]. rewrite Hl, broadcast_padding. cbn [bind].
    unfold masked_fill_eq0. cbn [shape].
    rewrite Hc, (broadcast_causal_mismatch B H S L H1 H2 H3). reflexivity.
  - cbn [bind]. unfold masked_fill_eq0.
    rewrite Hl, Hc, (broadcast_causal_mismatch B H S L H1 H2 H3). reflexivity.
Qed.

(** X11. A causal encoder with at least one layer refuses a sequence whose length
    is not the [seq_len] it was built with (lengths of one apart, which
    broadcast): the fixed [seq_len]-by-[seq_len] mask does not fit the
    logits. *)
Theorem causal_encoder_refuses_other_lengths (rnd : nat -> EncoderBlock.random)
    (num_layers num_heads d_model : Z) (p : R) (seq_len : Z) (B S : nat)
    (training : bool) (nz : nat -> EncoderBlock.noise) (x : Tensor)
    (mask : option Tensor) :
  (0 < d_model)%Z -> (0 < num_heads)%Z -> (d_model mod num_heads = 0)%Z ->
  (0 <= p <= 1)%R -> (0 <= seq_len)%Z -> (0 < num_layers)%Z ->
  shape x = [B; S; Z.to_nat d_model] -> dtype x = float32 ->
  match mask with Some pm => shape pm = [B; S] | None => True end ->
  S <> Z.to_nat seq_len -> S <> 1%nat -> seq_len <> 1%Z ->
  exists enc,
    Encoder.__init__ rnd num_layers num_heads d_model p seq_len true = Ok enc
    /\ Encoder.forward enc training nz x mask = Raise RuntimeError.
Proof.
  intros Hd Hn Hm Hp Hs HL Hxs Hxd Hmask H1 H2 H3.
  destruct (encoder_init_causal_ok rnd num_layers num_heads d_model p seq_len
              Hd Hn Hm Hp Hs) as (enc & cm & Hinit & Hattr & Hcm & _ & Hlen & Hall).
  exists enc. split; [exact Hinit|].
  unfold Encoder.forward, Encoder.forward_with.
  destruct (Encoder.encoders enc) as [|blk rest]; [cbn in Hlen; lia|].
  cbn [Encoder.loop_with]. unfold Encoder.get_causal_mask_tensor. rewrite Hattr.
  cbn [bind]. unfold EncoderBlock.forward_with.
  inversion Hall as [|? ? (F & l0 & d1 & l3 & Hwf) _]; subst.
  destruct (attention_forward_prefix float32 B S S _ _ x None
              (block_attention _ _ _ _ _ _ _ Hwf) Hxs Hxd Hxs Hxd)
    as (Q & K & V & logits & _ & _ & _ & _ & _ & Hls & _ & _ & Hfwd).
  rewrite Hfwd. unfold attend.
  rewrite (apply_mask_causal_mismatch B _ S (Z.to_nat seq_len) logits cm mask Hls Hcm Hmask);
    [reflexivity | exact H1 | exact H2 | lia].
Qed.

Lemma sequential_eval_noise (layers : list Layer) (noise noise' : list Noise) (x : Tensor) :
  Sequential.forward layers false noise x = Sequential.forward layers false noise' x.
Proof.
  revert noise noise' x. induction layers as [|l rest IH]; intros noise noise' x;
    cbn [Sequential.forward]; [reflexivity|].
  destruct l as [lin|d|].
  - destruct (Linear.forward lin x); cbn [bind]; [apply IH | reflexivity].
  - unfold Dropout.forward. apply IH.
  - apply IH.
Qed.

Lemma block_eval_noise (blk : EncoderBlock.t) (nz nz' : EncoderBlock.noise)
    (x : Tensor) (causal_mask mask : option Tensor) :
  EncoderBlock.forward blk false nz x causal_mask mask
  = EncoderBlock.forward blk false nz' x causal_mask mask.
Proof.
  unfold EncoderBlock.forward, EncoderBlock.forward_with, Dropout.forward.
  destruct (MHA.forward _ x None mask causal_mask) as [[a w]|]; [|reflexivity].
  cbn [bind]. destruct (tensor_add x a); [|reflexivity]. cbn [bind].
  destruct (LayerNorm.forward _ _); [|reflexivity]. cbn [bind].
  rewrite (sequential_eval_noise _ [EncoderBlock.keep_pff nz] [EncoderBlock.keep_pff nz']).
  reflexivity.
Qed.

(** X15. In evaluation mode the encoder does not depend on the random choices of
    dropout: two runs on the same input return the same result. *)
Theorem encoder_eval_ignores_dropout_noise (enc : Encoder.t)
    (nz nz' : nat -> EncoderBlock.noise) (x : Tensor) (mask : option Tensor) :
  Encoder.forward enc false nz x mask = Encoder.forward enc false nz' x mask.
Proof.
  unfold Encoder.forward, Encoder.forward_with.
  generalize (Encoder.encoders enc) as es. intros es. revert nz nz' x.
  induction es as [|e rest IH]; intros nz nz' x; cbn [Encoder.loop_with]; [reflexivity|].
  destruct (Encoder.get_causal_mask_tensor enc) as [c|]; [|reflexivity]. cbn [bind].
  pose proof (block_eval_noise e (nz 0%nat) (nz' 0%nat) x (Some c) mask) as Hb.
  unfold EncoderBlock.forward in Hb. rewrite Hb.
  destruct (EncoderBlock.forward_with MHA.forward e false (nz' 0%nat) x (Some c) mask);
    [cbn [bind]; apply IH | reflexivity].
Qed.

(** X13. With [num_layers <= 0] no block is built: construction succeeds whatever
    [num_heads], [d_model] and [dropout] are, and the forward pass returns its
    input unchanged (also without a causal mask). *)
Theorem encoder_without_layers_is_identity (rnd : nat -> EncoderBlock.random)
    (num_layers num_heads d_model : Z) (p : R) (seq_len : Z) :
  (num_layers <= 0)%Z ->
  exists enc,
    Encoder.__init__ rnd num_layers num_heads d_model p seq_len false = Ok enc
    /\ forall training nz x mask, Encoder.forward enc training nz x mask = Ok x.
Proof.
  intros HL. unfold Encoder.__init__.
  replace (Z.to_nat num_layers) with 0%nat by lia. cbn [Encoder.init_blocks bind].
  eexists. split; [reflexivity|]. intros. reflexivity.
Qed.

Lemma init_blocks_raises (rnd : nat -> EncoderBlock.random) (count first : nat)
    (num_heads d_model : Z) (p : R) :
  (0 < count)%nat -> (d_model mod num_heads <> 0)%Z ->
  Encoder.init_blocks rnd first count num_heads d_model p
  = Raise (if (num_heads =? 0)%Z then ZeroDivisionError else AssertionError).
Proof.
  intros Hc Hm. destruct count as [|n]; [lia|]. cbn [Encoder.init_blocks].
  unfold EncoderBlock.__init__, MHA.__init__, py_mod.
  destruct (Z.eqb_spec num_heads 0); [reflexivity|]. cbn [bind].
  destruct (Z.eqb_spec (d_model mod num_heads) 0); [contradiction|]. reflexivity.
Qed.

(** X14. The divisibility check of the attention module surfaces at the top: an
    encoder with at least one layer cannot be built when
    [d_model % num_heads != 0]; the constructor raises [AssertionError]
    ([ZeroDivisionError] when [num_heads = 0]). *)
Theorem encoder_init_checks_divisibility (rnd : nat -> EncoderBlock.random)
    (num_layers num_heads d_model : Z) (p : R) (seq_len : Z) (causal_mask : bool) :
  (0 < num_layers)%Z -> (d_model mod num_heads <> 0)%Z ->
  Encoder.__init__ rnd num_layers num_heads d_model p seq_len causal_mask
  = Raise (if (num_heads =? 0)%Z then ZeroDivisionError else AssertionError).
Proof.
  intros HL Hm. unfold Encoder.__init__.
  rewrite init_blocks_raises by (lia || assumption). reflexivity.
Qed.

(** ** Construction and its edge cases *)

Lemma positional_init_data (seq_length d_model : Z) (m : PositionalEncoding.t) :
  PositionalEncoding.__init__ seq_length d_model = Ok m ->
  forall pos dim, (pos < Z.to_nat seq_length)%nat -> (dim < Z.to_nat d_model)%nat ->
    data (PositionalEncoding.pe m) [0; pos; dim]%nat =
      if Nat.even dim
      then sin (INR pos / Rpower 10000 (2 * INR dim / IZR d_model))
      else cos (INR pos / Rpower 10000 (2 * INR dim / IZR d_model)).
Proof.
  intros H. destruct (positional_init_inv _ _ _ H) as (Hs & Hd & _).
  destruct (positional_reset_ok seq_length d_model Hs Hd) as (pe & Hpe & _ & Hdata).
  unfold PositionalEncoding.__init__ in H. rewrite Hpe in H. cbn [bind] in H.
  injection H as <-. exact Hdata.
Qed.

(** X1. For a sequence length [seq_length >= 0] the positional table can be built
    exactly for the widths [d_model > 0]; the width 0 raises
    [ZeroDivisionError] (the exponent divides by [d_model]). *)
Theorem positional_init_needs_positive_width (seq_length : Z) :
  (0 <= seq_length)%Z ->
  PositionalEncoding.__init__ seq_length 0 = Raise ZeroDivisionError
  /\ forall d_model,
       (exists m, PositionalEncoding.__init__ seq_length d_model = Ok m)
       <-> (0 < d_model)%Z.
Proof.
  intros Hs. split.
  - unfold PositionalEncoding.__init__, PositionalEncoding._reset_parameters,
      zeros2, full2.
    destruct (Z.ltb_spec seq_length 0); [lia|]. reflexivity.
  - intros d_model. split.
    + intros (m & Hm). apply (positional_init_inv _ _ _ Hm).
    + intros Hd. destruct (positional_reset_ok seq_length d_model Hs Hd) as (pe & Hpe & _).
      eexists. unfold PositionalEncoding.__init__. rewrite Hpe. reflexivity.
Qed.

(** X2. Every entry of the positional table lies in [[-1, 1]]; the row of
    position 0 is 0 at the even columns and 1 at the odd ones, and column 0
    holds [sin pos]. *)
Theorem positional_table_bounded (seq_length d_model : Z) (m : PositionalEncoding.t) :
  PositionalEncoding.__init__ seq_length d_model = Ok m ->
  forall pos dim, (pos < Z.to_nat seq_length)%nat -> (dim < Z.to_nat d_model)%nat ->
    (-1 <= data (PositionalEncoding.pe m) [0; pos; dim]%nat <= 1)%R
    /\ data (PositionalEncoding.pe m) [0; 0; dim]%nat
       = (if Nat.even dim then 0%R else 1%R)
    /\ data (PositionalEncoding.pe m) [0; pos; 0]%nat = sin (INR pos).
Proof.
  intros H pos dim Hp Hd.
  pose proof (positional_init_data _ _ _ H) as Hdata.
  destruct (positional_init_inv _ _ _ H) as (_ & Hdm & _).
  split; [|split].
  - rewrite (Hdata pos dim Hp Hd).
    destruct (Nat.even dim); [apply SIN_bound | apply COS_bound].
  - rewrite (Hdata 0%nat dim ltac:(lia) Hd). cbn [INR].
    unfold Rdiv at 1 3. rewrite !Rmult_0_l.
    destruct (Nat.even dim); [apply sin_0 | apply cos_0].
  - rewrite (Hdata pos 0%nat Hp ltac:(lia)). cbn [Nat.even INR].
    replace (2 * 0 / IZR d_model)%R with 0%R by (unfold Rdiv; ring).
    rewrite Rpower_O by lra. f_equal. field.
Qed.

Lemma embedding_forward_explicit (L D B S : nat) (self : Embedding.t) (x : IdTensor) :
  embedding_wf L D self -> ishape x = [B; S] -> (S <= L)%nat ->
  nn_Embedding.in_range (Embedding.embeddings self) x = true ->
  exists out,
    Embedding.forward self x = Ok out
    /\ shape out = [B; S; D]
    /\ forall b s d, (b < B)%nat -> (s < S)%nat -> (d < D)%nat ->
         data out [b; s; d] =
         (data (nn_Embedding.weight (Embedding.embeddings self))
            [Z.to_nat (idata x [b; s]); d]
          + data (PositionalEncoding.pe (Embedding.positional_embeddings self))
              [0; s; d]%nat)%R.
Proof.
  intros (Hdim & Hpe) Hx HS Hin.
  unfold Embedding.forward, nn_Embedding.forward, PositionalEncoding.forward.
  rewrite Hin, Hx, Hpe, Hdim. cbn [bind app].
  rewrite (Nat.min_l S L HS).
  unfold tensor_add, map2_tensor. cbn [shape]. rewrite broadcast_batch1.
  eexists. split; [reflexivity|]. split; [reflexivity|].
  intros b s d Hb Hs Hd. cbn [data].
  rewrite (bidx3 B S D b s d Hb Hs Hd), (bidx_batch1 S D b s d Hs Hd).
  reflexivity.
Qed.

Lemma embedding_init_positional (sample : list nat -> R)
    (d_model vocab_size seq_length : Z) (enable_padding : bool) (self : Embedding.t) :
  Embedding.__init__ sample d_model vocab_size seq_length enable_padding = Ok self ->
  PositionalEncoding.__init__ seq_length d_model
  = Ok (Embedding.positional_embeddings self).
Proof.
  unfold Embedding.__init__. intros H.
  destruct (if enable_padding
            then nn_Embedding.__init__ sample vocab_size d_model (Some 0%Z)
            else nn_Embedding.__init__ sample vocab_size d_model None) as [e|];
    cbn [bind] in H; [|discriminate].
  destruct (PositionalEncoding.__init__ seq_length d_model) as [p|];
    cbn [bind] in H; [|discriminate].
  injection H as <-. reflexivity.
Qed.

(** X16. Right after construction with [enable_padding=True], a position that
    holds token id 0 is embedded as its positional encoding alone: the sine
    or cosine of the position, nothing of the learned table. *)
Theorem padding_token_embeds_as_position (sample : list nat -> R)
    (d_model vocab_size seq_length : Z) (self : Embedding.t) (x : IdTensor) (B S : nat) :
  Embedding.__init__ sample d_model vocab_size seq_length true = Ok self ->
  ishape x = [B; S] -> (S <= Z.to_nat seq_length)%nat ->
  nn_Embedding.in_range (Embedding.embeddings self) x = true ->
  exists out,
    Embedding.forward self x = Ok out
    /\ forall b s d, (b < B)%nat -> (s < S)%nat -> (d < Z.to_nat d_model)%nat ->
         idata x [b; s] = 0%Z ->
         data out [b; s; d] =
           if Nat.even d
           then sin (INR s / Rpower 10000 (2 * INR d / IZR d_model))
           else cos (INR s / Rpower 10000 (2 * INR d / IZR d_model)).
Proof.
  intros Hinit Hx HS Hin.
  pose proof (embedding_init_wf _ _ _ _ _ _ Hinit) as Hwf.
  destruct (embedding_init_padding_row _ _ _ _ _ Hinit) as (_ & Hrow).
  pose proof (positional_init_data _ _ _ (embedding_init_positional _ _ _ _ _ _ Hinit))
    as Hpos.
  destruct (embedding_forward_explicit _ _ B S self x Hwf Hx HS Hin)
    as (out & Hout & _ & Hdata).
  exists out. split; [exact Hout|].
  intros b s d Hb Hs Hd Hid.
  rewrite (Hdata b s d Hb Hs Hd), Hid. change (Z.to_nat 0) with 0%nat.
  rewrite Hrow, Rplus_0_l. apply Hpos; lia.
Qed.

Lemma broadcast_positions_mismatch (B S L D : nat) :
  S <> L -> S <> 1%nat -> L <> 1%nat ->
  broadcast_shapes [B; S; D] [1; L; D]%nat = None.
Proof.
  intros H1 H2 H3. unfold broadcast_shapes. cbn [rev app broadcast_rev].
  destruct (Nat.eqb_spec B 1); destruct (Nat.eqb_spec S L); try contradiction;
    destruct (Nat.eqb_spec S 1); try contradiction;
    destruct (Nat.eqb_spec L 1); try contradiction; reflexivity.
Qed.

(** X17. A sequence longer than the positional table is refused: the slice of the
    table stops at its last row and no longer fits the looked-up embeddings
    (a table of one row apart, which broadcasts). *)
Theorem embedding_refuses_longer_sequences (L D B S : nat) (self : Embedding.t)
    (x : IdTensor) :
  embedding_wf L D self -> ishape x = [B; S] ->
  nn_Embedding.in_range (Embedding.embeddings self) x = true ->
  (L < S)%nat -> L <> 1%nat -> S <> 1%nat ->
  Embedding.forward self x = Raise RuntimeError.
Proof.
  intros (Hdim & Hpe) Hx Hin HL H1 H2.
  unfold Embedding.forward, nn_Embedding.forward, PositionalEncoding.forward.
  rewrite Hin, Hx, Hpe, Hdim. cbn [bind app].
  rewrite (Nat.min_r S L) by lia.
  unfold tensor_add, map2_tensor. cbn [shape].
  rewrite broadcast_positions_mismatch by lia. reflexivity.
Qed.

Lemma attention_init_inv (rnd : MHA.random) (num_heads d_model : Z) (self : MHA.t) :
  (0 < d_model)%Z -> MHA.__init__ rnd num_heads d_model = Ok self ->
  num_heads <> 0%Z /\ (d_model mod num_heads = 0)%Z.
Proof.
  intros Hd H. unfold MHA.__init__, py_mod in H.
  destruct (Z.eqb_spec num_heads 0); [discriminate|]. cbn [bind] in H.
  destruct (Z.eqb_spec (d_model mod num_heads) 0); [|discriminate].
  split; assumption.
Qed.

(** X3. A constructed attention module has its four biases at zero and its four
    weight matrices equal to the Xavier draws (nothing of the default
    initialisation of the linear layers is left), and its head count and head
    width multiply to [d_model]. *)
Theorem attention_init_parameters (rnd : MHA.random) (num_heads d_model : Z)
    (self : MHA.t) :
  (0 < d_model)%Z -> MHA.__init__ rnd num_heads d_model = Ok self ->
  (forall ix, data (Linear.bias (MHA.w_q self)) ix = 0%R
              /\ data (Linear.bias (MHA.w_k self)) ix = 0%R
              /\ data (Linear.bias (MHA.w_v self)) ix = 0%R
              /\ data (Linear.bias (MHA.w_out self)) ix = 0%R)
  /\ data (Linear.weight (MHA.w_q self)) = MHA.xavier_q rnd
  /\ data (Linear.weight (MHA.w_k self)) = MHA.xavier_k rnd
  /\ data (Linear.weight (MHA.w_v self)) = MHA.xavier_v rnd
  /\ data (Linear.weight (MHA.w_out self)) = MHA.xavier_out rnd
  /\ MHA.num_heads self = num_heads
  /\ (MHA.num_heads self * MHA.d_head self = d_model)%Z.
Proof.
  intros Hd H. destruct (attention_init_inv rnd num_heads d_model self Hd H) as (Hn & Hm).
  unfold MHA.__init__, py_mod in H.
  destruct (Z.eqb_spec num_heads 0); [contradiction|]. cbn [bind] in H.
  rewrite Hm in H. cbn [Z.eqb negb] in H.
  rewrite linear_init_ok in H by lia. cbn [bind] in H.
  unfold MHA._reset_parameters in H.
  cbn [MHA.w_q MHA.w_k MHA.w_v MHA.w_out MHA.num_heads MHA.d_head] in H.
  rewrite !reset_linear_ok in H by (reflexivity || lia). cbn [bind] in H.
  injection H as <-. cbn.
  repeat (split; [try reflexivity; intros; repeat split|]).
  assert (Hdiv : (num_heads | d_model)%Z) by (apply Z.mod_divide; assumption).
  symmetry. apply Z.quot_exact; [exact Hn|]. apply Z.rem_divide; assumption.
Qed.

(** X4. A module built from valid parameters accepts every input of the shapes of
    the data model: the output has the shape of the query, also when the
    value sequence has another length, and the weights have one row per
    query position and one column per key position. *)
Theorem attention_construct_then_forward (rnd : MHA.random) (num_heads d_model : Z)
    (B Sq Sk : nat) (query : Tensor) (value padding_mask causal_mask : option Tensor) :
  (0 < d_model)%Z -> (0 < num_heads)%Z -> (d_model mod num_heads = 0)%Z ->
  attention_input float32 B Sq Sk (Z.to_nat d_model) query value padding_mask causal_mask ->
  exists self out weights,
    MHA.__init__ rnd num_heads d_model = Ok self
    /\ MHA.forward self query value padding_mask causal_mask = Ok (out, weights)
    /\ shape out = [B; Sq; Z.to_nat d_model]
    /\ dtype out = float32
    /\ shape weights = [B; Z.to_nat num_heads; Sq; Sk].
Proof.
  intros Hd Hn Hm Hin.
  destruct (attention_init_ok rnd num_heads d_model Hd ltac:(lia) Hm)
    as (self & Hinit & Hnh & _).
  destruct (attention_init_wf rnd num_heads d_model Hd Hn Hm) as (self' & Hinit' & Hwf).
  assert (self' = self) by congruence. subst self'.
  destruct (attention_forward_explicit float32 B Sq Sk _ self query value padding_mask
              causal_mask Hwf Hin)
    as (_ & _ & _ & masked & out & _ & _ & _ & Hms & _ & Hf & Hos & Hod & _).
  exists self, out, (softmax_last masked).
  split; [exact Hinit|]. split; [exact Hf|]. split; [exact Hos|]. split; [exact Hod|].
  cbn [softmax_last shape]. rewrite Hms, Hnh. reflexivity.
Qed.

(** ** The further properties at concrete modules and inputs *)


Lemma fully_masked_row_is_uniform_witness :
  exists out weights,
    MHA.forward steep_attention two_tokens None (Some all_padded) None = Ok (out, weights)
    /\ forall j, (j < 2)%nat -> data weights [0; 0; 1; j]%nat = (1 / INR 2)%R.
Proof.
  apply (fully_masked_row_is_uniform float32 1 2 2 1 steep_attention two_tokens
           None (Some all_padded) None 0 0 1).
  - constructor; cbn; try lia; try discriminate; repeat split.
  - constructor; reflexivity || exact I.
  - lia.
  - cbn; lia.
  - lia.
  - intros j _. left. exists all_padded. split; reflexivity.
Defined.


Lemma attention_batch_entries_independent_witness :
  exists out weights out' weights',
    MHA.forward steep_attention batch_a None None None = Ok (out, weights)
    /\ MHA.forward steep_attention batch_b None None None = Ok (out', weights')
    /\ (forall h i j, (h < Z.to_nat (MHA.num_heads steep_attention))%nat -> (i < 2)%nat ->
          (j < 2)%nat -> data weights [0; h; i; j]%nat = data weights' [0; h; i; j]%nat)
    /\ (forall s o, (s < 2)%nat -> data out [0; s; o]%nat = data out' [0; s; o]%nat).
Proof.
  apply (attention_batch_entries_independent float32 2 2 2 1 steep_attention
           batch_a batch_b None None None None 0).
  - constructor; cbn; try lia; try discriminate; repeat split.
  - constructor; reflexivity || exact I.
  - constructor; reflexivity || exact I.
  - lia.
  - intros; reflexivity.
  - intros; reflexivity.
Defined.

Lemma attention_masks_act_through_zeros_witness :
  exists out weights out' weights',
    MHA.forward steep_attention two_tokens None (Some none_padded) None = Ok (out, weights)
    /\ MHA.forward steep_attention two_tokens None None None = Ok (out', weights')
    /\ (forall b h i j, (b < 1)%nat -> (h < Z.to_nat (MHA.num_heads steep_attention))%nat ->
          (i < 2)%nat -> (j < 2)%nat ->
          data weights [b; h; i; j] = data weights' [b; h; i; j])
    /\ (forall b s o, (b < 1)%nat -> (s < 2)%nat ->
          data out [b; s; o] = data out' [b; s; o]).
Proof.
  apply (attention_masks_act_through_zeros float32 1 2 2 1 steep_attention two_tokens
           None (Some none_padded) None None None).
  - constructor; cbn; try lia; try discriminate; repeat split.
  - constructor; reflexivity || exact I.
  - constructor; reflexivity || exact I.
  - intros b i j _ _ _. split.
    + intros [(m & Hm & H0)|(m & Hm & _)]; [|discriminate].
      injection Hm as <-. cbn in H0. lra.
    + intros [(m & Hm & _)|(m & Hm & _)]; discriminate.
Defined.

Lemma causal_encoder_keeps_shape_witness :
  exists enc out,
    Encoder.__init__ (fun _ => zero_random) 2 1 1 0 2 true = Ok enc
    /\ Encoder.forward enc false (fun _ => example_noise) two_tokens
         (Some example_padding) = Ok out
    /\ shape out = shape two_tokens.
Proof.
  apply (causal_encoder_keeps_shape (fun _ => zero_random) 2 1 1 0 2 1 false
           (fun _ => example_noise) two_tokens (Some example_padding));
    try lia; try lra; reflexivity.
Defined.

Lemma causal_encoder_refuses_other_lengths_witness :
  exists enc,
    Encoder.__init__ (fun _ => zero_random) 1 1 1 0 3 true = Ok enc
    /\ Encoder.forward enc false (fun _ => example_noise) two_tokens None
       = Raise RuntimeError.
Proof.
  apply (causal_encoder_refuses_other_lengths (fun _ => zero_random) 1 1 1 0 3 1 2
           false (fun _ => example_noise) two_tokens None);
    try lia; try lra; try reflexivity; try exact I; cbn; lia.
Defined.

Lemma encoder_without_layers_is_identity_witness :
  exists enc,
    Encoder.__init__ (fun _ => zero_random) 0 3 10 2 (-1) false = Ok enc
    /\ forall training nz x mask, Encoder.forward enc training nz x mask = Ok x.
Proof.
  apply (encoder_without_layers_is_identity (fun _ => zero_random) 0 3 10 2 (-1)). lia.
Defined.

Lemma encoder_init_checks_divisibility_witness :
  Encoder.__init__ (fun _ => zero_random) 1 3 10 0 4 false = Raise AssertionError.
Proof.
  apply (encoder_init_checks_divisibility (fun _ => zero_random) 1 3 10 0 4 false);
    [lia | discriminate].
Defined.

Lemma positional_init_needs_positive_width_witness :
  PositionalEncoding.__init__ 4 0 = Raise ZeroDivisionError
  /\ forall d_model,
       (exists m, PositionalEncoding.__init__ 4 d_model = Ok m) <-> (0 < d_model)%Z.
Proof.
  apply (positional_init_needs_positive_width 4). lia.
Defined.

Lemma positional_table_bounded_witness :
  (-1 <= data (PositionalEncoding.pe example_positional) [0; 3; 1]%nat <= 1)%R
  /\ data (PositionalEncoding.pe example_positional) [0; 0; 1]%nat = 1%R
  /\ data (PositionalEncoding.pe example_positional) [0; 3; 0]%nat = sin (INR 3).
Proof.
  apply (positional_table_bounded 4 2 example_positional); [reflexivity | lia | lia].
Defined.

Lemma padding_token_embeds_as_position_witness :
  exists out,
    Embedding.forward example_padded_embedding example_ids = Ok out
    /\ forall b s d, (b < 1)%nat -> (s < 2)%nat -> (d < Z.to_nat 2)%nat ->
         idata example_ids [b; s] = 0%Z ->
         data out [b; s; d] =
           if Nat.even d
           then sin (INR s / Rpower 10000 (2 * INR d / 2))
           else cos (INR s / Rpower 10000 (2 * INR d / 2)).
Proof.
  apply (padding_token_embeds_as_position (fun _ => 1%R) 2 3 4
           example_padded_embedding example_ids 1 2);
    [reflexivity | reflexivity | lia | reflexivity].
Defined.

Lemma embedding_refuses_longer_sequences_witness :
  Embedding.forward example_embedding long_ids = Raise RuntimeError.
Proof.
  apply (embedding_refuses_longer_sequences 4 2 1 5 example_embedding long_ids);
    [split; reflexivity | reflexivity | reflexivity | lia | lia | lia].
Defined.

Lemma attention_init_parameters_witness :
  (forall ix, data (Linear.bias (MHA.w_q example_attention)) ix = 0%R
              /\ data (Linear.bias (MHA.w_k example_attention)) ix = 0%R
              /\ data (Linear.bias (MHA.w_v example_attention)) ix = 0%R
              /\ data (Linear.bias (MHA.w_out example_attention)) ix = 0%R)
  /\ data (Linear.weight (MHA.w_q example_attention)) = MHA.xavier_q zero_attention_random
  /\ data (Linear.weight (MHA.w_k example_attention)) = MHA.xavier_k zero_attention_random
  /\ data (Linear.weight (MHA.w_v example_attention)) = MHA.xavier_v zero_attention_random
  /\ data (Linear.weight (MHA.w_out example_attention))
     = MHA.xavier_out zero_attention_random
  /\ MHA.num_heads example_attention = 2%Z
  /\ (MHA.num_heads example_attention * MHA.d_head example_attention = 8)%Z.
Proof.
  apply (attention_init_parameters zero_attention_random 2 8 example_attention);
    [lia | reflexivity].
Defined.

Lemma attention_construct_then_forward_witness :
  exists self out weights,
    MHA.__init__ zero_attention_random 1 1 = Ok self
    /\ MHA.forward self two_tokens None (Some example_padding) (Some example_causal)
       = Ok (out, weights)
    /\ shape out = [1; 2; Z.to_nat 1]%nat
    /\ dtype out = float32
    /\ shape weights = [1; Z.to_nat 1; 2; 2]%nat.
Proof.
  apply (attention_construct_then_forward zero_attention_random 1 1 1 2 2 two_tokens
           None (Some example_padding) (Some example_causal));
    [lia | lia | reflexivity | constructor; reflexivity].
Defined.

Lemma all_indices_pair (B S b s : nat) :
  (b < B)%nat -> (s < S)%nat -> In [b; s] (all_indices [B; S]).
Proof.
  intros Hb Hs. cbn [all_indices].
  apply in_flat_map. exists b. split; [apply in_seq; lia|].
  apply in_map. apply in_flat_map. exists s. split; [apply in_seq; lia|].
  cbn. now left.
Qed.

(** X18. A token id outside the vocabulary, at any place of the input, makes the
    forward pass raise [IndexError]: negative ids do not count from the end. *)
Theorem embedding_refuses_unknown_ids (self : Embedding.t) (x : IdTensor)
    (B S b s : nat) :
  ishape x = [B; S] -> (b < B)%nat -> (s < S)%nat ->
  (idata x [b; s] < 0
   \/ Z.of_nat (nn_Embedding.num_embeddings (Embedding.embeddings self)) <= idata x [b; s])%Z ->
  Embedding.forward self x = Raise IndexError.
Proof.
  intros Hx Hb Hs Hid. unfold Embedding.forward, nn_Embedding.forward.
  destruct (nn_Embedding.in_range (Embedding.embeddings self) x) eqn:Hin; [|reflexivity].
  exfalso. unfold nn_Embedding.in_range in Hin. rewrite Hx in Hin.
  rewrite forallb_forall in Hin.
  specialize (Hin [b; s] (all_indices_pair B S b s Hb Hs)).
  apply andb_true_iff in Hin. destruct Hin as (H0 & H1).
  apply Z.leb_le in H0. apply Z.ltb_lt in H1. lia.
Qed.

Lemma embedding_refuses_unknown_ids_witness :
  Embedding.forward example_embedding (mkIdTensor [1; 2]%nat (fun _ => 3%Z))
  = Raise IndexError.
Proof.
  apply (embedding_refuses_unknown_ids example_embedding _ 1 2 0 1);
    [reflexivity | lia | lia | right; cbn; lia].
Defined.

(** X12. Whatever the parameters, an encoder built with [causal_mask=False] and at
    least one layer raises [AttributeError] on every forward call: the buffer
    the loop reads was never registered. *)
Theorem noncausal_encoder_always_raises (rnd : nat -> EncoderBlock.random)
    (num_layers num_heads d_model : Z) (p : R) (seq_len : Z) (enc : Encoder.t) :
  Encoder.__init__ rnd num_layers num_heads d_model p seq_len false = Ok enc ->
  (0 < num_layers)%Z ->
  forall training nz x mask,
    Encoder.forward enc training nz x mask = Raise AttributeError.
Proof.
  intros Hinit HL training nz x mask.
  destruct (encoder_init_noncausal _ _ _ _ _ _ _ Hinit) as (Hnone & Hlen).
  apply encoder_forward_without_buffer; [exact Hnone|].
  intros Hnil. rewrite Hnil in Hlen. cbn in Hlen. lia.
Qed.

Lemma example_noncausal_encoder_init :
  Encoder.__init__ (fun _ => zero_random) 1 1 1 0 2 false = Ok example_noncausal_encoder.
Proof.
  unfold example_noncausal_encoder.
  destruct (init_blocks_ok (fun _ => zero_random) 1 0 1 1 0)
    as (es & Hes); try lia; try lra; [reflexivity|].
  unfold Encoder.__init__. change (Z.to_nat 1) with 1%nat. rewrite Hes. reflexivity.
Qed.

Lemma noncausal_encoder_always_raises_witness :
  Encoder.__init__ (fun _ => zero_random) 1 1 1 0 2 false = Ok example_noncausal_encoder
  /\ Encoder.forward example_noncausal_encoder false (fun _ => example_noise)
       two_tokens None = Raise AttributeError.
Proof.
  split; [exact example_noncausal_encoder_init|].
  apply (noncausal_encoder_always_raises (fun _ => zero_random) 1 1 1 0 2
           example_noncausal_encoder example_noncausal_encoder_init). lia.
Defined.

(** ** runner.py: the name of the run *)

Module runner_properties.

Import Ascii String.

Lemma py_split_nonempty (sep : ascii) (s : string) : runner.py_split sep s <> [].
Proof.
  destruct s as [|c rest]; cbn; [discriminate|].
  destruct (Ascii.eqb c sep); [discriminate|].
  destruct (runner.py_split sep rest); discriminate.
Qed.

Lemma last_cons_nonempty (A : Type) (x : A) (l : list A) (d : A) :
  l <> [] -> List.last (x :: l) d = List.last l d.
Proof. destruct l; [contradiction | reflexivity]. Qed.

Lemma run_name_no_slash_id (name : string) :
  ~ runner.occurs runner.slash name -> runner.run_name name = name.
Proof.
  unfold runner.run_name.
  induction name as [|c rest IH]; intros Hno; [reflexivity|].
  cbn [runner.py_split].
  destruct (Ascii.eqb_spec c runner.slash) as [->|Hne].
  - exfalso. apply Hno. now left.
  - assert (Hrest : ~ runner.occurs runner.slash rest) by (intros H; apply Hno; now right).
    specialize (IH Hrest).
    destruct (runner.py_split runner.slash rest) as [|piece pieces] eqn:Hs;
      [exfalso; now apply (py_split_nonempty runner.slash rest)|].
    destruct pieces as [|p2 ps].
    + cbn in IH |- *. now rewrite IH.
    + exfalso.
      (* a string without slash splits into one piece *)
      clear IH Hno Hne.
      revert piece p2 ps Hs. induction rest as [|a r IHr]; intros piece p2 ps Hs.
      * cbn in Hs. discriminate.
      * cbn [runner.py_split] in Hs.
        destruct (Ascii.eqb_spec a runner.slash) as [->|Hne].
        -- apply Hrest. now left.
        -- assert (Hr : ~ runner.occurs runner.slash r) by (intros H; apply Hrest; now right).
           destruct (runner.py_split runner.slash r) as [|q qs] eqn:Hq; [discriminate|].
           injection Hs as _ Hqs. subst qs.
           eapply (IHr Hr). reflexivity.
Qed.

Lemma run_name_append (prefix name : string) :
  runner.run_name (prefix ++ String runner.slash name) = runner.run_name name.
Proof.
  unfold runner.run_name.
  induction prefix as [|c rest IH]; cbn [append runner.py_split].
  - rewrite Ascii.eqb_refl. apply last_cons_nonempty. apply py_split_nonempty.
  - destruct (Ascii.eqb c runner.slash).
    + rewrite last_cons_nonempty by apply py_split_nonempty. exact IH.
    + destruct (runner.py_split runner.slash (rest ++ String runner.slash name))
        as [|piece pieces] eqn:Hs; [exfalso; now apply (py_split_nonempty _ _ Hs)|].
      destruct pieces as [|p2 ps].
      * exfalso.
        (* the split of a string that holds a slash has two pieces at least *)
        clear IH. revert piece Hs. induction rest as [|a r IHr]; intros piece Hs.
        -- cbn [append runner.py_split] in Hs. rewrite Ascii.eqb_refl in Hs.
           destruct (runner.py_split runner.slash name) eqn:Hn;
             [now apply (py_split_nonempty _ _ Hn) | discriminate].
        -- cbn [append runner.py_split] in Hs.
           destruct (Ascii.eqb a runner.slash).
           ++ destruct (runner.py_split runner.slash (r ++ String runner.slash name)) eqn:Hn;
                [now apply (py_split_nonempty _ _ Hn) | discriminate].
           ++ destruct (runner.py_split runner.slash (r ++ String runner.slash name))
                as [|q qs] eqn:Hq; [now apply (py_split_nonempty _ _ Hq)|].
              injection Hs as _ Hqs. subst qs. eapply IHr. reflexivity.
      * rewrite last_cons_nonempty in IH by discriminate.
        rewrite last_cons_nonempty by discriminate. exact IH.
Qed.

(** X19. The run is named after the last component of the experiment path: for a
    name without a slash, [run_name (prefix/name) = name], whatever the prefix
    holds; in particular a path that ends in a slash gives the empty name. *)
Theorem run_name_is_last_component (prefix name : string) :
  ~ runner.occurs runner.slash name ->
  runner.run_name (prefix ++ String runner.slash name) = name
  /\ runner.run_name name = name
  /\ runner.run_name (prefix ++ String runner.slash EmptyString) = EmptyString.
Proof.
  intros Hno. split; [|split].
  - rewrite run_name_append. now apply run_name_no_slash_id.
  - now apply run_name_no_slash_id.
  - rewrite run_name_append. reflexivity.
Qed.

Lemma run_name_is_last_component_witness :
  runner.run_name ("runs/exp1" ++ String runner.slash "baseline") = "baseline"%string
  /\ runner.run_name "baseline" = "baseline"%string
  /\ runner.run_name ("runs/exp1" ++ String runner.slash EmptyString) = EmptyString.
Proof.
  apply (run_name_is_last_component "runs/exp1" "baseline").
  cbn. intros H. repeat (destruct H as [H|H]; [discriminate H|]). exact H.
Defined.

End runner_properties.
